(** * VideoClipper: the segment planner and its orchestration

    A shallow embedding of [video_clipper.py].

    - Seconds are rationals ([Q]).  The duration is a Python [float]; every
      finite float is a rational, Python compares an [int] with a [float]
      exactly, and the only addition of the loop, [start_time +
      segment_duration], has two [int] operands.  Python [int]s are embedded
      with [inject_Z]; [//] by 3600 and 60 is the exact floor division, and
      [%] its exact remainder but for the rounding of the sum that Python
      makes on a negative [float].  The non-finite floats are outside the
      model.
    - The [while] loop of [create_segments] runs on fuel: [None] means that the
      call has not returned within the given number of iterations.
    - [subprocess.run] is answered by an oracle of the environment, one reply
      per invocation; the filesystem is the set of the paths that exist; what
      the program does to the outside is recorded in a log of events.  The one
      [mkdir] of a run has its reply as a parameter ([main_on], [run_on]);
      [main] and [run] are the case in which the directory can be made. *)

From Stdlib Require Import ZArith QArith Qround Lqa Lia String Ascii List.
From stdpp Require Import gmap strings.
Import ListNotations.

Local Open Scope string_scope.
Local Open Scope Z_scope.

(** ** Python arithmetic on seconds *)

(** [x // n] for a positive [int] [n]: the floor of the quotient. *)
Definition py_floordiv (x : Q) (n : Z) : Q :=
  inject_Z (Qfloor (x / inject_Z n)).

(** The integer nearest to [q], a tie going to the even one. *)
Definition round_half_even (q : Q) : Z :=
  let f := Qfloor q in
  match (q - inject_Z f ?= 1 # 2)%Q with
  | Lt => f
  | Gt => f + 1
  | Eq => if Z.even f then f else f + 1
  end.

(** [floor (log2 q)] for [0 < q]. *)
Definition binary_exponent (q : Q) : Z :=
  let k := Z.log2 (Qnum q) - Z.log2 (Z.pos (Qden q)) in
  if Qle_bool (2 ^ k) q then k else k - 1.

(** The [float] nearest to [q], for [q] in the range of the normal numbers:
    the rounding of one float operation, to 53 significant bits. *)
Definition round_float (q : Q) : Q :=
  if Qle_bool q 0 then q
  else
    let scale := (2 ^ (52 - binary_exponent q))%Q in
    (inject_Z (round_half_even (q * scale)) / scale)%Q.

(** [x % n] for a positive [int] [n]: the remainder that goes with [//].
    On [x >= 0] it is [fmod(x, n)], which is exact; on a negative [float]
    Python adds [n] to [fmod(x, n)], and that sum is rounded. *)
Definition py_mod (x : Q) (n : Z) : Q :=
  let r := (x - inject_Z n * py_floordiv x n)%Q in
  if Qlt_le_dec x 0 then round_float r else r.

(** [int(x)]: truncation toward zero. *)
Definition py_int (x : Q) : Z :=
  Z.quot (Qnum x) (Z.pos (Qden x)).

(** [min(a, b)]: the first argument unless the second is strictly smaller. *)
Definition py_min (a b : Q) : Q :=
  if Qlt_le_dec b a then b else a.

(** ** Python integer formatting: the format specs [02d] and [03d] *)

Definition digit_char (d : Z) : ascii :=
  ascii_of_N (48 + Z.to_N d).

Fixpoint decimal_digits (fuel : nat) (n : Z) : string :=
  match fuel with
  | O => ""
  | S f =>
      if n <? 10 then String (digit_char n) ""
      else decimal_digits f (n / 10) ++ String (digit_char (n mod 10)) ""
  end.

(** [str(n)] for [0 <= n]; a number has at most [log2 n + 1] decimal digits. *)
Definition str_of_nonneg (n : Z) : string :=
  decimal_digits (S (Z.to_nat (Z.log2 n))) n.

Fixpoint zeros (k : nat) : string :=
  match k with
  | O => ""
  | S k' => String "0" (zeros k')
  end.

Definition zero_pad (width : nat) (s : string) : string :=
  zeros (width - String.length s) ++ s.

(** [format(z, "0{width}d")]: zero padding up to a minimum width, the sign
    counted in the width. *)
Definition format_d0 (width : nat) (z : Z) : string :=
  if z <? 0 then String "-" (zero_pad (width - 1) (str_of_nonneg (- z)))
  else zero_pad width (str_of_nonneg z).

(** ** [VideoClipper.format_time] *)

Definition format_time (seconds : Q) : string :=
  let hours := py_int (py_floordiv seconds 3600) in
  let minutes := py_int (py_floordiv (py_mod seconds 3600) 60) in
  let secs := py_int (py_mod seconds 60) in
  format_d0 2 hours ++ ":" ++ format_d0 2 minutes ++ ":" ++ format_d0 2 secs.

(** ** The loop of [VideoClipper.create_segments] *)

(** The values of [start_time], [end_time] and [segment_number] at one
    [segments.append]. *)
Record iteration := Iteration {
  it_start : Q;
  it_end : Q;
  it_number : Z
}.

Fixpoint segment_loop (fuel : nat) (total_duration : Q) (segment_duration : Z)
    (start_time : Q) (segment_number : Z) : option (list iteration) :=
  match fuel with
  | O => None
  | S fuel' =>
      if Qlt_le_dec start_time total_duration then
        let end_time :=
          py_min (start_time + inject_Z segment_duration)%Q total_duration in
        match segment_loop fuel' total_duration segment_duration
                end_time (segment_number + 1) with
        | Some rest =>
            Some (Iteration start_time end_time segment_number :: rest)
        | None => None
        end
      else Some []
  end.

(** The loop from its initial state [start_time = 0], [segment_number = 1]. *)
Definition plan_iterations (fuel : nat) (total_duration : Q)
    (segment_duration : Z) : option (list iteration) :=
  segment_loop fuel total_duration segment_duration 0%Q 1.

(** ** Paths *)

(** A [pathlib.Path] by the attributes the program reads. *)
Record Path := MkPath {
  parent : string;
  stem : string;
  suffix : string
}.

Definition path_name (p : Path) : string := stem p ++ suffix p.

(** [dir / child] rendered by [str]. *)
Definition joinpath (dir child : string) : string := dir ++ "/" ++ child.

Definition path_str (p : Path) : string := joinpath (parent p) (path_name p).

Record VideoClipper := MkClipper {
  input_file : Path;
  output_dir : string
}.

(** [f"{self.input_file.stem}_segment_{segment_number:03d}.mp4"] *)
Definition output_filename (self : VideoClipper) (segment_number : Z) : string :=
  stem (input_file self) ++ "_segment_" ++ format_d0 3 segment_number ++ ".mp4".

(** The tuple appended to [segments]. *)
Definition segment_tuple (self : VideoClipper) (it : iteration)
    : string * string * string :=
  (format_time (it_start it), format_time (it_end it),
   joinpath (output_dir self) (output_filename self (it_number it))).

(** ** The outside world *)

(** What one [subprocess.run(..., check=True)] of ffprobe comes to.  The text
    of [stdout] is kept as what [float(stdout.strip())] makes of it: a number,
    or [None] where [float] raises [ValueError]. *)
Inductive ffprobe_reply :=
| ProbeCompleted (stdout : option Q)
| ProbeNonZeroExit
| ProbeNotStarted.

(** What one [subprocess.run(..., check=True)] of ffmpeg comes to. *)
Inductive ffmpeg_reply :=
| ExtractCompleted
| ExtractNonZeroExit
| ExtractNotStarted.

(** The replies of the external tools, by invocation: [ffprobe env n] answers
    the invocation that follows [n] earlier ones. *)
Record env := Env {
  ffprobe : nat -> ffprobe_reply;
  ffmpeg : nat -> ffmpeg_reply
}.

(** The exceptions of the program; the two [RuntimeError]s of
    [get_video_duration] by their message. *)
Inductive exn :=
| FileNotFoundError
| FileExistsError
| CalledProcessError
| ValueError
| OSError
| RuntimeError_failed_duration
| RuntimeError_invalid_duration.

(** One constructor per [print] of the program, with the values that go into
    the text; of an output path the text shows the name. *)
Inductive message :=
| MsgInputFile (file : string)
| MsgOutputDirectory (dir : string)
| MsgTotalDuration (formatted : string)
| MsgWillCreate (count : nat)
| MsgDryRun
| MsgPlanned (i : nat) (start end_ output_path : string)
| MsgStarting
| MsgProcessing (i count : nat) (start end_ : string)
| MsgCompleted (i : nat) (output_path : string)
| MsgSegmentError (i : nat)
| MsgStderr
| MsgAllCreated (dir : string)
| MsgDurationMustBePositive
| MsgError (e : exn).

Inductive event :=
| EvMkdir (dir : string)
| EvProbe (file : string)
| EvExtract (file start end_ output_path : string)
| EvPrint (m : message).

Record world := World {
  fs : gset string;
  log : list event
}.

(** How a call ends: it returns, raises an exception, raises [SystemExit], or
    has not returned when the fuel is spent. *)
Inductive outcome (A : Type) :=
| Return (a : A)
| Raise (e : exn)
| SysExit (code : Z)
| NoReturn.
Arguments Return {A} a.
Arguments Raise {A} e.
Arguments SysExit {A} code.
Arguments NoReturn {A}.

Definition M (A : Type) : Type := env -> world -> outcome A * world.

Definition ret {A} (a : A) : M A := fun _ w => (Return a, w).

Definition bind {A B} (m : M A) (k : A -> M B) : M B :=
  fun e w =>
    match m e w with
    | (Return a, w') => k a e w'
    | (Raise x, w') => (Raise x, w')
    | (SysExit c, w') => (SysExit c, w')
    | (NoReturn, w') => (NoReturn, w')
    end.

Notation "'let*' x ':=' m 'in' k" := (bind m (fun x => k))
  (at level 10, x name, m at level 100, k at level 200).
Notation "m ';;' k" := (bind m (fun _ => k))
  (at level 100, k at level 200, right associativity).

Definition raise {A} (x : exn) : M A := fun _ w => (Raise x, w).

Definition sys_exit {A} (code : Z) : M A := fun _ w => (SysExit code, w).

Definition no_return {A} : M A := fun _ w => (NoReturn, w).

(** [try: m except ...:] with the handler of the first matching clause;
    [None] where no clause matches.  [SystemExit] is not an [Exception]. *)
Definition try_except {A} (m : M A) (handler : exn -> option (M A)) : M A :=
  fun e w =>
    match m e w with
    | (Raise x, w') =>
        match handler x with
        | Some h => h e w'
        | None => (Raise x, w')
        end
    | r => r
    end.

Definition emit (ev : event) : M unit :=
  fun _ w => (Return tt, World (fs w) (log w ++ [ev])).

Definition print (m : message) : M unit := emit (EvPrint m).

Fixpoint probes_of (l : list event) : list string :=
  match l with
  | [] => []
  | EvProbe file :: l' => file :: probes_of l'
  | _ :: l' => probes_of l'
  end.

Fixpoint extracts_of (l : list event) : list (string * string * string) :=
  match l with
  | [] => []
  | EvExtract _ start end_ output_path :: l' =>
      (start, end_, output_path) :: extracts_of l'
  | _ :: l' => extracts_of l'
  end.

Fixpoint mkdirs_of (l : list event) : list string :=
  match l with
  | [] => []
  | EvMkdir dir :: l' => dir :: mkdirs_of l'
  | _ :: l' => mkdirs_of l'
  end.

(** [Path.exists()] *)
Definition path_exists (p : string) : M bool :=
  fun _ w => (Return (bool_decide (p ∈ fs w)), w).

(** What one [Path.mkdir(exist_ok=True)] comes to: the directory is there
    afterwards (made now, or a directory before); [FileExistsError], the path
    being taken by something that is not a directory; another [OSError], the
    parent being missing or not writable. *)
Inductive mkdir_reply :=
| MkdirCompleted
| MkdirFileExists
| MkdirRefused.

(** [Path.mkdir(exist_ok=True)] on the reply [r] of the system. *)
Definition mkdir_exist_ok_on (r : mkdir_reply) (dir : string) : M unit :=
  fun _ w =>
    let log' := (log w ++ [EvMkdir dir])%list in
    match r with
    | MkdirCompleted => (Return tt, World ({[dir]} ∪ fs w) log')
    | MkdirFileExists => (Raise FileExistsError, World (fs w) log')
    | MkdirRefused => (Raise OSError, World (fs w) log')
    end.

(** The call that the system completes. *)
Definition mkdir_exist_ok (dir : string) : M unit :=
  mkdir_exist_ok_on MkdirCompleted dir.

(** [subprocess.run(cmd, capture_output=True, text=True, check=True)] for
    ffprobe; returns the captured [stdout]. *)
Definition run_ffprobe (file : string) : M (option Q) :=
  fun e w =>
    let w' := World (fs w) (log w ++ [EvProbe file]) in
    match ffprobe e (length (probes_of (log w))) with
    | ProbeCompleted stdout => (Return stdout, w')
    | ProbeNonZeroExit => (Raise CalledProcessError, w')
    | ProbeNotStarted => (Raise OSError, w')
    end.

(** [float(s)] *)
Definition py_float (stdout : option Q) : M Q :=
  match stdout with
  | Some d => ret d
  | None => raise ValueError
  end.

(** The same for ffmpeg; a completed extraction has written its output
    file. *)
Definition run_ffmpeg (file start end_ output_path : string) : M unit :=
  fun e w =>
    let log' := (log w ++ [EvExtract file start end_ output_path])%list in
    match ffmpeg e (length (extracts_of (log w))) with
    | ExtractCompleted => (Return tt, World ({[output_path]} ∪ fs w) log')
    | ExtractNonZeroExit => (Raise CalledProcessError, World (fs w) log')
    | ExtractNotStarted => (Raise OSError, World (fs w) log')
    end.

(** ** The class [VideoClipper] *)

(** [__init__] on the reply [r] of the system to its [mkdir]. *)
Definition VideoClipper_init_on (r : mkdir_reply) (input : Path)
    : M VideoClipper :=
  let* found := path_exists (path_str input) in
  if negb found then raise FileNotFoundError
  else
    let output_dir := joinpath (parent input) (stem input ++ "_segments") in
    mkdir_exist_ok_on r output_dir;;
    ret (MkClipper input output_dir).

(** [__init__] where the directory can be made. *)
Definition VideoClipper_init (input : Path) : M VideoClipper :=
  VideoClipper_init_on MkdirCompleted input.

Definition get_video_duration (self : VideoClipper) : M Q :=
  try_except
    (let* stdout := run_ffprobe (path_str (input_file self)) in
     py_float stdout)
    (fun x =>
       match x with
       | CalledProcessError => Some (raise RuntimeError_failed_duration)
       | ValueError => Some (raise RuntimeError_invalid_duration)
       | _ => None
       end).

Definition create_segments (fuel : nat) (self : VideoClipper)
    (segment_duration : Z) : M (list (string * string * string)) :=
  let* total_duration := get_video_duration self in
  match plan_iterations fuel total_duration segment_duration with
  | Some its => ret (map (segment_tuple self) its)
  | None => no_return
  end.

(** The dry-run loop: [for i, (...) in enumerate(segments, 1): print(...)]. *)
Fixpoint print_plan (i : nat) (segments : list (string * string * string))
    : M unit :=
  match segments with
  | [] => ret tt
  | (start, end_, output_path) :: rest =>
      print (MsgPlanned i start end_ output_path);;
      print_plan (S i) rest
  end.

(** The processing loop; [false] where the body ran into its [return]. *)
Fixpoint process_segments (self : VideoClipper) (count i : nat)
    (segments : list (string * string * string)) : M bool :=
  match segments with
  | [] => ret true
  | (start, end_, output_path) :: rest =>
      print (MsgProcessing i count start end_);;
      let* done :=
        try_except
          (run_ffmpeg (path_str (input_file self)) start end_ output_path;;
           print (MsgCompleted i output_path);;
           ret true)
          (fun x =>
             match x with
             | CalledProcessError =>
                 Some (print (MsgSegmentError i);; print MsgStderr;; ret false)
             | _ => None
             end) in
      if done then process_segments self count (S i) rest else ret false
  end.

Definition split_video (fuel : nat) (self : VideoClipper)
    (segment_duration : Z) (dry_run : bool) : M unit :=
  print (MsgInputFile (path_str (input_file self)));;
  print (MsgOutputDirectory (output_dir self));;
  let* total_duration := get_video_duration self in
  print (MsgTotalDuration (format_time total_duration));;
  let* segments := create_segments fuel self segment_duration in
  print (MsgWillCreate (length segments));;
  if dry_run then
    print MsgDryRun;;
    print_plan 1 segments
  else
    print MsgStarting;;
    let* finished := process_segments self (length segments) 1 segments in
    if finished then print (MsgAllCreated (output_dir self)) else ret tt.

(** ** [main] *)

(** The parsed command line. *)
Record Args := MkArgs {
  arg_input_file : Path;
  arg_duration : Z;
  arg_dry_run : bool
}.

(** [main] on the reply [r] of the system to the [mkdir] of the
    constructor. *)
Definition main_on (r : mkdir_reply) (fuel : nat) (args : Args) : M unit :=
  if arg_duration args <=? 0 then
    print MsgDurationMustBePositive;;
    sys_exit 1
  else
    try_except
      (let* clipper := VideoClipper_init_on r (arg_input_file args) in
       split_video fuel clipper (arg_duration args) (arg_dry_run args))
      (fun x => Some (print (MsgError x);; sys_exit 1)).

(** [main] where the output directory can be made. *)
Definition main (fuel : nat) (args : Args) : M unit :=
  main_on MkdirCompleted fuel args.

(** The exit status of the process: 0 when [main] returns, the code of
    [SystemExit], 1 for an uncaught exception. *)
Definition exit_status (o : outcome unit) : option Z :=
  match o with
  | Return _ => Some 0
  | SysExit code => Some code
  | Raise _ => Some 1
  | NoReturn => None
  end.

(** A run of the program from a filesystem [files], on the reply [r] to the
    [mkdir] of the constructor. *)
Definition run_on (r : mkdir_reply) (fuel : nat) (args : Args) (e : env)
    (files : gset string) : outcome unit * world :=
  main_on r fuel args e (World files []).

(** A run of the program from a filesystem [files] in which the output
    directory can be made. *)
Definition run (fuel : nat) (args : Args) (e : env) (files : gset string)
    : outcome unit * world :=
  main fuel args e (World files []).

(** ** The timestamp as the specification words it *)

(** [x mod n] on the reals. *)
Definition real_mod (x : Q) (n : Z) : Q :=
  (x - inject_Z n * inject_Z (Qfloor (x / inject_Z n)))%Q.

(** A field zero-padded to two digits. *)
Definition two_digits (z : Z) : string := zero_pad 2 (str_of_nonneg z).

Definition formatTimestamp (seconds : Q) : string :=
  let hours := Qfloor (seconds / 3600) in
  let minutes := Qfloor (real_mod seconds 3600 / 60) in
  let secs := Qfloor (real_mod seconds 60) in
  two_digits hours ++ ":" ++ two_digits minutes ++ ":" ++ two_digits secs.

(** The three digits of a number below 1000. *)
Definition three_digits (n : Z) : string :=
  String (digit_char (n / 100))
    (String (digit_char (n / 10 mod 10)) (String (digit_char (n mod 10)) "")).

(** The number that a string of decimal digits writes. *)
Fixpoint digits_value (acc : Z) (s : string) : Z :=
  match s with
  | EmptyString => acc
  | String c s' => digits_value (10 * acc + (Z.of_N (N_of_ascii c) - 48)) s'
  end.

(** ** Predicates on plans *)

(** Each iteration of the list starts where the one before it ended, the
    first one at [s]. *)
Fixpoint chained (s : Q) (its : list iteration) : Prop :=
  match its with
  | [] => True
  | it :: rest => it_start it = s /\ chained (it_end it) rest
  end.

(** ** Abbreviations for runs *)

(** The object that [VideoClipper(input)] constructs. *)
Definition clipper_of (input : Path) : VideoClipper :=
  MkClipper input (joinpath (parent input) (stem input ++ "_segments")).

(** [except Exception as e: print(...); sys.exit(1)] applied to the end of
    the [try] body of [main]. *)
Definition main_handler (r : outcome unit * world) : outcome unit * world :=
  match r with
  | (Raise x, w) => (SysExit 1, World (fs w) (log w ++ [EvPrint (MsgError x)]))
  | _ => r
  end.

(** The exception that [get_video_duration] raises on a reply without a
    duration. *)
Definition probe_exn (r : ffprobe_reply) : exn :=
  match r with
  | ProbeCompleted _ => RuntimeError_invalid_duration
  | ProbeNonZeroExit => RuntimeError_failed_duration
  | ProbeNotStarted => OSError
  end.

(** Whether an extraction ran to a zero exit status. *)
Definition completed (r : ffmpeg_reply) : bool :=
  match r with
  | ExtractCompleted => true
  | _ => false
  end.

(** The probes of one [split_video], by the reply to the first. *)
Definition probes_of_split_video (file : string) (first_reply : ffprobe_reply)
    : list string :=
  match first_reply with
  | ProbeCompleted (Some _) => [file; file]
  | _ => [file]
  end.

(** ** A run for the examples *)

Definition example_input : Path := MkPath "/data" "talk" ".mp4".

Definition example_files : gset string := {[ "/data/talk.mp4" ]}.

(** ffprobe reports 100 seconds; the second extraction exits with a non-zero
    status. *)
Definition example_env : env :=
  Env (fun _ => ProbeCompleted (Some 100%Q))
      (fun n => if Nat.eqb n 1 then ExtractNonZeroExit else ExtractCompleted).

(** ** Measures of a plan and of a log *)

(** The sum of [end_time - start_time] over the iterations. *)
Fixpoint total_length (its : list iteration) : Q :=
  match its with
  | [] => 0%Q
  | it :: rest => (it_end it - it_start it + total_length rest)%Q
  end.

(** What the dry-run loop prints for [segments], numbered from [i]. *)
Fixpoint planned_lines (i : nat) (segments : list (string * string * string))
    : list event :=
  match segments with
  | [] => []
  | (start, end_, output_path) :: rest =>
      EvPrint (MsgPlanned i start end_ output_path) :: planned_lines (S i) rest
  end.

(** ** Reading a timestamp *)

(** The numbers between the colons of a text, read in decimal. *)
Fixpoint timestamp_fields (s : string) (acc : Z) : list Z :=
  match s with
  | EmptyString => [acc]
  | String c s' =>
      if Ascii.eqb c ":" then acc :: timestamp_fields s' 0
      else timestamp_fields s' (10 * acc + (Z.of_N (N_of_ascii c) - 48))
  end.

(** The seconds that a text [H:M:S] stands for. *)
Definition timestamp_seconds (s : string) : option Z :=
  match timestamp_fields s 0 with
  | [h; m; sec] => Some (3600 * h + 60 * m + sec)
  | _ => None
  end.

(** ** Facts about floors and ceilings *)

Lemma Qceiling_unique (x : Q) (z : Z) :
  (inject_Z (z - 1) < x)%Q -> (x <= inject_Z z)%Q -> Qceiling x = z.
Proof.
  intros Hlo Hhi.
  pose proof (Qceiling_lt x) as H1. pose proof (Qle_ceiling x) as H2.
  assert (Hz : (inject_Z (z - 1) < inject_Z (Qceiling x))%Q) by lra.
  assert (Hc : (inject_Z (Qceiling x - 1) < inject_Z z)%Q) by lra.
  rewrite <- Zlt_Qlt in Hz, Hc. lia.
Qed.

Lemma Qfloor_unique (x : Q) (z : Z) :
  (inject_Z z <= x)%Q -> (x < inject_Z (z + 1))%Q -> Qfloor x = z.
Proof.
  intros Hlo Hhi.
  pose proof (Qfloor_le x) as H1. pose proof (Qlt_floor x) as H2.
  assert (Hz : (inject_Z z < inject_Z (Qfloor x + 1))%Q) by lra.
  assert (Hc : (inject_Z (Qfloor x) < inject_Z (z + 1))%Q) by lra.
  rewrite <- Zlt_Qlt in Hz, Hc. lia.
Qed.

Lemma inject_Z_pos (z : Z) : 0 < z -> (0 < inject_Z z)%Q.
Proof. intros H. change 0%Q with (inject_Z 0). now rewrite <- Zlt_Qlt. Qed.

Lemma Qdiv_lt_inv (a b c : Q) : (0 < c -> a < b / c -> a * c < b)%Q.
Proof.
  intros Hc H. destruct (Qlt_le_dec (a * c) b) as [|Hle]; [assumption|].
  apply (Qle_shift_div_r _ _ _ Hc) in Hle. lra.
Qed.

Lemma Qdiv_le_inv (a b c : Q) : (0 < c -> b / c <= a -> b <= a * c)%Q.
Proof.
  intros Hc H. destruct (Qlt_le_dec (a * c) b) as [Hlt|]; [|assumption].
  apply (Qlt_shift_div_l _ _ _ Hc) in Hlt. lra.
Qed.

Lemma Qdiv_le_inv_l (a b c : Q) : (0 < c -> a <= b / c -> a * c <= b)%Q.
Proof.
  intros Hc H. destruct (Qlt_le_dec b (a * c)) as [Hlt|]; [|assumption].
  apply (Qlt_shift_div_r _ _ _ Hc) in Hlt. lra.
Qed.

Lemma Qdiv_lt_inv_r (a b c : Q) : (0 < c -> b / c < a -> b < a * c)%Q.
Proof.
  intros Hc H. destruct (Qlt_le_dec b (a * c)) as [|Hle]; [assumption|].
  apply (Qle_shift_div_l _ _ _ Hc) in Hle. lra.
Qed.

(** ** The plan of the loop *)

Section Planner.
Variable total : Q.
Variable L : Z.

Lemma segment_loop_chained fuel : forall s n its,
  segment_loop fuel total L s n = Some its -> chained s its.
Proof.
  induction fuel as [|fuel IH]; intros s n its H; simpl in H; [discriminate|].
  destruct (Qlt_le_dec s total); [|injection H as <-; exact I].
  destruct (segment_loop fuel total L _ _) as [rest|] eqn:E; [|discriminate].
  injection H as <-. simpl. split; [reflexivity|]. eapply IH, E.
Qed.

Lemma chained_adjacent : forall (its : list iteration) s i a b,
  chained s its -> its !! i = Some a -> its !! S i = Some b ->
  it_end a = it_start b.
Proof.
  induction its as [|it rest IH]; intros s i a b Hc Ha Hb; [discriminate|].
  destruct Hc as [_ Hc]. destruct i as [|i]; simpl in *.
  - injection Ha as <-. destruct rest as [|it' rest']; [discriminate|].
    simpl in Hb. injection Hb as <-. destruct Hc as [Hc _]. now rewrite Hc.
  - eapply IH; eauto.
Qed.

(** Every iteration starts a whole number of segments after the first and
    ends at the smaller of its start plus the segment length and the
    total. *)
Lemma segment_loop_lookup fuel : forall s n its i it,
  segment_loop fuel total L s n = Some its -> its !! i = Some it ->
  (it_start it == s + inject_Z (Z.of_nat i * L))%Q /\
  it_number it = n + Z.of_nat i /\
  (it_start it < total)%Q /\
  it_end it = py_min (it_start it + inject_Z L)%Q total.
Proof.
  induction fuel as [|fuel IH]; intros s n its i it H Hi; simpl in H;
    [discriminate|].
  destruct (Qlt_le_dec s total) as [Hlt|Hge];
    [|injection H as <-; discriminate].
  destruct (segment_loop fuel total L _ _) as [rest|] eqn:E; [|discriminate].
  injection H as <-. destruct i as [|i]; simpl in Hi.
  - injection Hi as <-. simpl. repeat split; try lia; try assumption.
    change (Z.of_nat 0 * L) with 0. change (inject_Z 0) with 0%Q. lra.
  - destruct (IH _ _ _ _ _ E Hi) as (Hs & Hn & Hst & He).
    repeat split; try assumption; try lia.
    destruct rest as [|r0 rest0]; [discriminate|].
    (* the loop went on, so the end of the first iteration is below the
       total and the minimum was the sum *)
    destruct fuel as [|fuel']; [discriminate|]. simpl in E.
    revert E Hs. unfold py_min.
    destruct (Qlt_le_dec total (s + inject_Z L)) as [Hm|Hm].
    + destruct (Qlt_le_dec total total) as [Habs|_]; [lra|discriminate].
    + intros _ Hs. rewrite Hs.
      replace (Z.of_nat (S i) * L) with (L + Z.of_nat i * L) by lia.
      rewrite inject_Z_plus. lra.
Qed.

Lemma segment_loop_last fuel : forall s n its,
  segment_loop fuel total L s n = Some its -> (s < total)%Q ->
  exists it, last its = Some it /\ (it_end it == total)%Q.
Proof.
  induction fuel as [|fuel IH]; intros s n its H Hs; simpl in H;
    [discriminate|].
  destruct (Qlt_le_dec s total) as [_|Hge]; [|lra].
  destruct (segment_loop fuel total L _ _) as [rest|] eqn:E; [|discriminate].
  injection H as <-.
  set (e := py_min (s + inject_Z L)%Q total) in *.
  assert (He : (e <= total)%Q).
  { unfold e, py_min. destruct (Qlt_le_dec total (s + inject_Z L)); lra. }
  destruct rest as [|r0 rest0].
  - exists (Iteration s e n). split; [reflexivity|]. simpl.
    destruct fuel as [|fuel']; [discriminate|]. simpl in E.
    destruct (Qlt_le_dec e total) as [|Hge].
    + destruct (segment_loop fuel' total L _ _); discriminate.
    + lra.
  - assert (Hlt : (e < total)%Q).
    { destruct fuel as [|fuel']; [discriminate|]. simpl in E.
      destruct (Qlt_le_dec e total); [assumption|discriminate]. }
    destruct (IH _ _ _ E Hlt) as (it & Hl & Hit).
    exists it. split; [|assumption]. exact Hl.
Qed.

Hypothesis L_pos : 0 < L.

(** The loop returns, after as many iterations as there are segment lengths,
    whole or begun, between its start and the total. *)
Lemma segment_loop_returns : forall (k : nat) s n fuel,
  (inject_Z (Z.of_nat k * L) < total - s)%Q ->
  (total - s <= inject_Z ((Z.of_nat k + 1) * L))%Q ->
  (S k < fuel)%nat ->
  exists its, segment_loop fuel total L s n = Some its /\ length its = S k.
Proof.
  assert (HL : (0 < inject_Z L)%Q) by (apply inject_Z_pos, L_pos).
  induction k as [|k IH]; intros s n fuel Hlo Hhi Hf.
  - destruct fuel as [|[|fuel]]; try lia. 
    change (Z.of_nat 0 * L) with 0 in Hlo. change (inject_Z 0) with 0%Q in Hlo.
    replace ((Z.of_nat 0 + 1) * L) with L in Hhi by lia.
    cbn [segment_loop].
    destruct (Qlt_le_dec s total) as [_|Hge]; [|lra].
    destruct (Qlt_le_dec (py_min (s + inject_Z L) total) total) as [Hlt|_].
    + exfalso. revert Hlt. unfold py_min.
      destruct (Qlt_le_dec total (s + inject_Z L)); lra.
    + eexists; split; reflexivity.
  - destruct fuel as [|fuel]; [lia|].
    replace (Z.of_nat (S k) * L) with (Z.of_nat k * L + L) in Hlo by lia.
    replace ((Z.of_nat (S k) + 1) * L)
      with ((Z.of_nat k + 1) * L + L) in Hhi by lia.
    rewrite inject_Z_plus in Hlo, Hhi.
    assert (Hk : (0 <= inject_Z (Z.of_nat k * L))%Q).
    { change 0%Q with (inject_Z 0). rewrite <- Zle_Qle. nia. }
    cbn [segment_loop].
    destruct (Qlt_le_dec s total) as [_|Hge]; [|lra].
    assert (Hmin : py_min (s + inject_Z L) total = (s + inject_Z L)%Q).
    { unfold py_min. destruct (Qlt_le_dec total (s + inject_Z L)); [lra|].
      reflexivity. }
    rewrite Hmin.
    destruct (IH (s + inject_Z L)%Q (n + 1) fuel) as (rest & Hr & Hlen);
      [lra|lra|lia|].
    rewrite Hr. eexists; split; [reflexivity|]. simpl. now rewrite Hlen.
Qed.

Hypothesis total_pos : (0 < total)%Q.

Lemma ceiling_bounds :
  let c := Qceiling (total / inject_Z L) in
  1 <= c /\
  (inject_Z ((c - 1) * L) < total)%Q /\ (total <= inject_Z (c * L))%Q.
Proof.
  intros c.
  assert (HL : (0 < inject_Z L)%Q) by (apply inject_Z_pos, L_pos).
  pose proof (Qceiling_lt (total / inject_Z L)) as H1.
  pose proof (Qle_ceiling (total / inject_Z L)) as H2.
  fold c in H1, H2.
  apply (Qdiv_lt_inv _ _ _ HL) in H1. apply (Qdiv_le_inv _ _ _ HL) in H2.
  rewrite !inject_Z_mult. repeat split; try assumption.
  assert (Hc : (inject_Z 0 < inject_Z c)%Q).
  { destruct (Qlt_le_dec 0 (inject_Z c)) as [|Hle]; [assumption|].
    exfalso. nra. }
  rewrite <- Zlt_Qlt in Hc. lia.
Qed.

Lemma plan_iterations_returns fuel :
  (Z.to_nat (Qceiling (total / inject_Z L)) < fuel)%nat ->
  exists its, plan_iterations fuel total L = Some its /\
    length its = Z.to_nat (Qceiling (total / inject_Z L)).
Proof.
  intros Hf. destruct ceiling_bounds as (Hc & Hlo & Hhi).
  set (c := Qceiling (total / inject_Z L)) in *.
  destruct (segment_loop_returns (Z.to_nat (c - 1)) 0%Q 1 fuel)
    as (its & Hr & Hlen).
  - rewrite Z2Nat.id by lia. lra.
  - rewrite Z2Nat.id by lia. replace (c - 1 + 1) with c by lia. lra.
  - lia.
  - exists its. split; [exact Hr|]. rewrite Hlen. lia.
Qed.
End Planner.

Lemma floor_ceiling_cases (total : Q) (L : Z) :
  0 < L -> (0 < total)%Q ->
  let c := Qceiling (total / inject_Z L) in
  (~ real_mod total L == 0 ->
     (total - inject_Z ((c - 1) * L) == real_mod total L)%Q) /\
  (real_mod total L == 0 ->
     (total - inject_Z ((c - 1) * L) == inject_Z L)%Q).
Proof.
  intros HL Ht c.
  destruct (ceiling_bounds total L HL Ht) as (Hc & Hlo & Hhi). fold c in Hc, Hlo, Hhi.
  assert (HLq : (0 < inject_Z L)%Q) by (apply inject_Z_pos, HL).
  unfold real_mod.
  set (f := Qfloor (total / inject_Z L)).
  pose proof (Qfloor_le (total / inject_Z L)) as Hf1.
  pose proof (Qlt_floor (total / inject_Z L)) as Hf2.
  fold f in Hf1, Hf2.
  apply (Qdiv_le_inv_l _ _ _ HLq) in Hf1. apply (Qdiv_lt_inv_r _ _ _ HLq) in Hf2.
  rewrite <- !inject_Z_mult in Hf1, Hf2.
  assert (Hcf : c = f \/ c = f + 1).
  { assert (H1 : (inject_Z ((c - 1) * L) < inject_Z ((f + 1) * L))%Q) by lra.
    assert (H2 : (inject_Z (f * L) <= inject_Z (c * L))%Q) by lra.
    rewrite <- Zlt_Qlt in H1. rewrite <- Zle_Qle in H2. nia. }
  replace ((c - 1) * L) with (c * L - L) in * by lia.
  unfold Z.sub in *. rewrite inject_Z_plus, inject_Z_opp in *.
  rewrite inject_Z_mult in *.
  split; intros Hm; destruct Hcf as [-> | ->].
  - exfalso. apply Hm. lra.
  - rewrite inject_Z_plus. change (inject_Z 1) with 1%Q. lra.
  - lra.
  - exfalso. rewrite inject_Z_plus in Hlo. change (inject_Z 1) with 1%Q in Hlo.
    lra.
Qed.

(** For a positive total duration and a positive segment length the loop
    returns, and its iterations tile the timeline: the first iteration starts
    at 0, each iteration ends where the next one starts, and the last one ends
    at the total duration. *)
Theorem plan_tiles_timeline (total : Q) (L : Z) (fuel : nat) :
  (0 < total)%Q -> 0 < L ->
  (Z.to_nat (Qceiling (total / inject_Z L)) < fuel)%nat ->
  exists its first_it last_it,
    plan_iterations fuel total L = Some its /\
    head its = Some first_it /\ it_start first_it = 0%Q /\
    (forall i a b, its !! i = Some a -> its !! S i = Some b ->
                   it_end a = it_start b) /\
    last its = Some last_it /\ (it_end last_it == total)%Q.
Proof.
  intros Ht HL Hf.
  destruct (plan_iterations_returns total L HL Ht fuel Hf) as (its & Hp & Hlen).
  pose proof (segment_loop_chained total L fuel _ _ _ Hp) as Hc.
  destruct (segment_loop_last total L fuel _ _ _ Hp Ht) as (lst & Hl & He).
  destruct its as [|it0 rest]; [discriminate|].
  exists (it0 :: rest), it0, lst. repeat split; try assumption.
  - exact (proj1 Hc).
  - intros i a b. eapply chained_adjacent, Hc.
Qed.

Lemma plan_tiles_timeline_witness :
  exists its first_it last_it,
    plan_iterations 5 100 30 = Some its /\
    head its = Some first_it /\ it_start first_it = 0%Q /\
    (forall i a b, its !! i = Some a -> its !! S i = Some b ->
                   it_end a = it_start b) /\
    last its = Some last_it /\ (it_end last_it == 100)%Q.
Proof.
  apply (plan_tiles_timeline 100 30 5); [reflexivity | lia | vm_compute; lia].
Defined.



(** The last iteration of the loop is [d mod L] long when that remainder is
    not zero and [L] long otherwise; it is never empty and never longer than
    [L]. *)
Theorem final_segment_length (total : Q) (L : Z) (fuel : nat) :
  (0 < total)%Q -> 0 < L ->
  (Z.to_nat (Qceiling (total / inject_Z L)) < fuel)%nat ->
  exists its last_it,
    plan_iterations fuel total L = Some its /\ last its = Some last_it /\
    (~ real_mod total L == 0 ->
       (it_end last_it - it_start last_it == real_mod total L)%Q) /\
    (real_mod total L == 0 ->
       (it_end last_it - it_start last_it == inject_Z L)%Q) /\
    (0 < it_end last_it - it_start last_it)%Q /\
    (it_end last_it - it_start last_it <= inject_Z L)%Q.
Proof.
  intros Ht HL Hf.
  destruct (plan_iterations_returns total L HL Ht fuel Hf) as (its & Hp & Hlen).
  destruct (segment_loop_last total L fuel _ _ _ Hp Ht) as (lst & Hl & He).
  destruct (ceiling_bounds total L HL Ht) as (Hc & Hlo & Hhi).
  destruct (floor_ceiling_cases total L HL Ht) as (Hnz & Hz).
  set (c := Qceiling (total / inject_Z L)) in *.
  assert (Hi : its !! Z.to_nat (c - 1) = Some lst).
  { rewrite last_lookup in Hl. rewrite Hlen in Hl.
    replace (Z.to_nat (c - 1)) with (Nat.pred (Z.to_nat c)) by lia. exact Hl. }
  destruct (segment_loop_lookup total L fuel _ _ _ _ _ Hp Hi) as (Hs & _).
  rewrite Z2Nat.id in Hs by lia.
  exists its, lst. split; [assumption|]. split; [assumption|].
  replace (c * L) with ((c - 1) * L + L) in Hhi by lia.
  rewrite inject_Z_plus in Hhi.
  repeat split.
  - intros Hm. rewrite <- (Hnz Hm). lra.
  - intros Hm. rewrite <- (Hz Hm). lra.
  - lra.
  - lra.
Qed.

Lemma final_segment_length_witness :
  exists its last_it,
    plan_iterations 5 100 30 = Some its /\ last its = Some last_it /\
    (~ real_mod 100 30 == 0 ->
       (it_end last_it - it_start last_it == real_mod 100 30)%Q) /\
    (real_mod 100 30 == 0 ->
       (it_end last_it - it_start last_it == inject_Z 30)%Q) /\
    (0 < it_end last_it - it_start last_it)%Q /\
    (it_end last_it - it_start last_it <= inject_Z 30)%Q.
Proof.
  apply (final_segment_length 100 30 5); [reflexivity | lia | vm_compute; lia].
Defined.

(** ** Formatting *)

Lemma append_String (c : ascii) (a b : string) :
  String c a ++ b = String c (a ++ b).
Proof. reflexivity. Qed.

Lemma append_empty (b : string) : "" ++ b = b.
Proof. reflexivity. Qed.

Lemma string_length_app (a b : string) :
  String.length (a ++ b) = (String.length a + String.length b)%nat.
Proof. induction a as [|c a IH]; simpl; [reflexivity|now rewrite IH]. Qed.

Lemma decimal_digits_lt10 (f : nat) (n : Z) :
  n < 10 -> decimal_digits (S f) n = String (digit_char n) "".
Proof. intros H. simpl. destruct (Z.ltb_spec n 10); [reflexivity|lia]. Qed.

Lemma decimal_digits_ge10 (f : nat) (n : Z) :
  10 <= n ->
  decimal_digits (S f) n =
  decimal_digits f (n / 10) ++ String (digit_char (n mod 10)) "".
Proof. intros H. simpl. destruct (Z.ltb_spec n 10); [lia|reflexivity]. Qed.

Lemma decimal_digits_nonempty (f : nat) (n : Z) :
  (1 <= String.length (decimal_digits (S f) n))%nat.
Proof.
  simpl. destruct (n <? 10); simpl; [lia|].
  rewrite string_length_app. simpl. lia.
Qed.

Lemma log2_fuel (n : Z) :
  10 <= n -> exists k, Z.to_nat (Z.log2 n) = S (S (S k)).
Proof.
  intros H. pose proof (Z.log2_le_mono 10 n H) as Hl.
  change (Z.log2 10) with 3 in Hl.
  exists (Z.to_nat (Z.log2 n) - 3)%nat. lia.
Qed.

Lemma str_of_nonneg_1 (n : Z) :
  n < 10 -> str_of_nonneg n = String (digit_char n) "".
Proof. apply decimal_digits_lt10. Qed.

Lemma str_of_nonneg_2 (n : Z) :
  10 <= n < 100 ->
  str_of_nonneg n = String (digit_char (n / 10)) (String (digit_char (n mod 10)) "").
Proof.
  intros H. unfold str_of_nonneg. destruct (log2_fuel n) as (k & ->); [lia|].
  rewrite decimal_digits_ge10 by lia.
  rewrite decimal_digits_lt10 by (apply Z.div_lt_upper_bound; lia).
  reflexivity.
Qed.

Lemma str_of_nonneg_3 (n : Z) :
  100 <= n < 1000 -> str_of_nonneg n = three_digits n.
Proof.
  intros H. unfold str_of_nonneg. destruct (log2_fuel n) as (k & ->); [lia|].
  rewrite decimal_digits_ge10 by lia.
  rewrite decimal_digits_ge10 by (apply Z.div_le_lower_bound; lia).
  rewrite decimal_digits_lt10
    by (rewrite Z.div_div by lia; apply Z.div_lt_upper_bound; lia).
  rewrite Z.div_div by lia. reflexivity.
Qed.

Lemma str_of_nonneg_long (n : Z) :
  100 <= n -> (3 <= String.length (str_of_nonneg n))%nat.
Proof.
  intros H. unfold str_of_nonneg. destruct (log2_fuel n) as (k & ->); [lia|].
  rewrite decimal_digits_ge10 by lia.
  rewrite decimal_digits_ge10 by (apply Z.div_le_lower_bound; lia).
  rewrite !string_length_app. cbn [String.length].
  pose proof (decimal_digits_nonempty (S k) (n / 10 / 10)). lia.
Qed.

Lemma format_d0_nonneg (w : nat) (z : Z) :
  0 <= z -> format_d0 w z = zero_pad w (str_of_nonneg z).
Proof. intros H. unfold format_d0. destruct (Z.ltb_spec z 0); [lia|reflexivity]. Qed.

Lemma two_digits_length (z : Z) :
  0 <= z < 100 -> String.length (two_digits z) = 2%nat.
Proof.
  intros H. unfold two_digits, zero_pad. destruct (Z.lt_ge_cases z 10).
  - rewrite str_of_nonneg_1 by lia. reflexivity.
  - rewrite str_of_nonneg_2 by lia. reflexivity.
Qed.

Lemma two_digits_grows (z : Z) :
  100 <= z -> (2 < String.length (two_digits z))%nat.
Proof.
  intros H. unfold two_digits, zero_pad. rewrite string_length_app.
  pose proof (str_of_nonneg_long z H). lia.
Qed.

Lemma zeros_digit_0 : digit_char 0 = "0"%char.
Proof. reflexivity. Qed.

(** Below 1000 the spec [03d] writes exactly the three digits. *)
Lemma format_d0_3 (n : Z) : 0 <= n < 1000 -> format_d0 3 n = three_digits n.
Proof.
  intros H. rewrite format_d0_nonneg by lia. unfold zero_pad, three_digits.
  destruct (Z.lt_ge_cases n 10); [|destruct (Z.lt_ge_cases n 100)].
  - rewrite str_of_nonneg_1 by lia. simpl.
    rewrite (Z.div_small n 100), (Z.div_small n 10), (Z.mod_small n 10) by lia.
    reflexivity.
  - rewrite str_of_nonneg_2 by lia. simpl.
    rewrite (Z.div_small n 100) by lia.
    rewrite (Z.mod_small (n / 10) 10)
      by (split; [apply Z.div_pos; lia | apply Z.div_lt_upper_bound; lia]).
    reflexivity.
  - rewrite str_of_nonneg_3 by lia. reflexivity.
Qed.

(** ** Comparison of names *)

Lemma ascii_compare_refl (c : ascii) : (c ?= c)%char = Eq.
Proof. unfold Ascii.compare. apply N.compare_refl. Qed.

Lemma compare_common_prefix (p a b : string) :
  String.compare (p ++ a) (p ++ b) = String.compare a b.
Proof.
  induction p as [|c p IH]; simpl; [reflexivity|].
  now rewrite ascii_compare_refl.
Qed.

Lemma digit_char_compare (x y : Z) :
  0 <= x <= 9 -> 0 <= y <= 9 ->
  (digit_char x ?= digit_char y)%char = (x ?= y).
Proof.
  intros Hx Hy. unfold Ascii.compare, digit_char.
  rewrite !N_ascii_embedding by lia.
  rewrite <- N2Z.inj_compare. rewrite !N2Z.inj_add, !Z2N.id by lia.
  apply Z.add_compare_mono_l.
Qed.

Lemma three_digits_compare (i j : Z) (s t : string) :
  0 <= i -> i < j -> j < 1000 ->
  String.compare (three_digits i ++ s) (three_digits j ++ t) = Lt.
Proof.
  intros Hi Hij Hj. unfold three_digits.
  rewrite !append_String, !append_empty. cbn [String.compare].
  rewrite !digit_char_compare
    by (split; [try apply Z.div_pos; try apply Z.mod_pos_bound; lia
               | try (apply Z.lt_succ_r, Z.div_lt_upper_bound; lia);
                 try (apply Z.lt_succ_r, Z.mod_pos_bound; lia)]).
  destruct (Z.compare_spec (i / 100) (j / 100)) as [E1|?|?];
    [|reflexivity|exfalso; Z.div_mod_to_equations; lia].
  destruct (Z.compare_spec (i / 10 mod 10) (j / 10 mod 10)) as [E2|?|?];
    [|reflexivity|exfalso; Z.div_mod_to_equations; lia].
  destruct (Z.compare_spec (i mod 10) (j mod 10)) as [E3|?|?];
    [|reflexivity|]; exfalso; Z.div_mod_to_equations; lia.
Qed.

(** ** [format_time] *)

Lemma py_int_inject_Z (z : Z) : py_int (inject_Z z) = z.
Proof. unfold py_int. simpl. apply Z.quot_1_r. Qed.

Lemma py_int_floor (x : Q) : (0 <= x)%Q -> py_int x = Qfloor x.
Proof.
  destruct x as [n d]. unfold Qle, py_int. simpl. intros H.
  apply Z.quot_div_nonneg; lia.
Qed.

Lemma Qfloor_sub_Z (x : Q) (k : Z) : Qfloor (x - inject_Z k) = Qfloor x - k.
Proof.
  pose proof (Qfloor_le x). pose proof (Qlt_floor x).
  apply Qfloor_unique.
  - unfold Z.sub. rewrite inject_Z_plus, inject_Z_opp. lra.
  - replace (Qfloor x - k + 1) with (Qfloor x + 1 + - k) by lia.
    rewrite (inject_Z_plus _ (- k)), inject_Z_opp. lra.
Qed.

Lemma Qfloor_div_Z (x : Q) (n : Z) :
  0 < n -> Qfloor (x / inject_Z n) = Qfloor x / n.
Proof.
  intros Hn. assert (Hq : (0 < inject_Z n)%Q) by (apply inject_Z_pos, Hn).
  pose proof (Qfloor_le x) as H1. pose proof (Qlt_floor x) as H2.
  pose proof (Z.mul_div_le (Qfloor x) n Hn) as H3.
  pose proof (Z.mul_succ_div_gt (Qfloor x) n Hn) as H4.
  apply Qfloor_unique.
  - apply Qle_shift_div_l; [assumption|]. rewrite <- inject_Z_mult.
    apply Qle_trans with (inject_Z (Qfloor x)); [|assumption].
    rewrite <- Zle_Qle. lia.
  - apply Qlt_shift_div_r; [assumption|]. rewrite <- inject_Z_mult.
    apply Qlt_le_trans with (inject_Z (Qfloor x + 1)); [assumption|].
    rewrite <- Zle_Qle. lia.
Qed.

(** On an argument that is not negative [%] is the exact remainder. *)
Lemma py_mod_real_mod (x : Q) (n : Z) :
  (0 <= x)%Q -> py_mod x n = real_mod x n.
Proof.
  intros Hx. unfold py_mod. cbv zeta.
  destruct (Qlt_le_dec x 0); [lra|reflexivity].
Qed.

Lemma real_mod_floor (x : Q) (n : Z) :
  0 < n -> Qfloor (real_mod x n) = Qfloor x mod n.
Proof.
  intros Hn. unfold real_mod. rewrite <- inject_Z_mult.
  rewrite Qfloor_sub_Z, Qfloor_div_Z by assumption.
  rewrite Z.mod_eq by lia. reflexivity.
Qed.

Lemma real_mod_nonneg (x : Q) (n : Z) : 0 < n -> (0 <= real_mod x n)%Q.
Proof.
  intros Hn. assert (Hq : (0 < inject_Z n)%Q) by (apply inject_Z_pos, Hn).
  unfold real_mod.
  pose proof (Qfloor_le (x / inject_Z n)) as H.
  apply (Qdiv_le_inv_l _ _ _ Hq) in H. lra.
Qed.

Lemma py_mod_floor (x : Q) (n : Z) :
  (0 <= x)%Q -> 0 < n -> Qfloor (py_mod x n) = Qfloor x mod n.
Proof. intros Hx Hn. rewrite py_mod_real_mod by assumption. now apply real_mod_floor. Qed.

Lemma py_mod_nonneg (x : Q) (n : Z) :
  (0 <= x)%Q -> 0 < n -> (0 <= py_mod x n)%Q.
Proof. intros Hx Hn. rewrite py_mod_real_mod by assumption. now apply real_mod_nonneg. Qed.

(** The fields of [format_time], on the whole seconds of an argument that is
    not negative. *)
Lemma format_time_fields (seconds : Q) :
  (0 <= seconds)%Q ->
  let z := Qfloor seconds in
  format_time seconds =
  format_d0 2 (z / 3600) ++ ":" ++ format_d0 2 (z mod 3600 / 60) ++ ":" ++
  format_d0 2 (z mod 60).
Proof.
  intros Hs z. unfold format_time.
  unfold py_floordiv at 1 2. rewrite !py_int_inject_Z.
  rewrite (py_int_floor (py_mod seconds 60)) by (apply py_mod_nonneg; [assumption|lia]).
  rewrite !Qfloor_div_Z by lia. rewrite !py_mod_floor by (assumption || lia).
  reflexivity.
Qed.

Lemma formatTimestamp_fields (seconds : Q) :
  let z := Qfloor seconds in
  formatTimestamp seconds =
  two_digits (z / 3600) ++ ":" ++ two_digits (z mod 3600 / 60) ++ ":" ++
  two_digits (z mod 60).
Proof.
  intros z. unfold formatTimestamp.
  change 3600%Q with (inject_Z 3600). change 60%Q with (inject_Z 60).
  rewrite !Qfloor_div_Z, !real_mod_floor by lia. reflexivity.
Qed.

(** C9: [format_time] is the timestamp of the specification: the fields are
    the floors of [seconds/3600], [(seconds mod 3600)/60] and [seconds mod 60],
    each zero-padded to two digits; what is below a second is cut off, not
    rounded; the minutes and seconds fields have two digits, the hours field
    two up to 99 hours and more beyond. *)
Theorem format_time_spec (seconds : Q) :
  (0 <= seconds)%Q ->
  let hours := Qfloor (seconds / 3600) in
  let minutes := Qfloor (real_mod seconds 3600 / 60) in
  let secs := Qfloor (real_mod seconds 60) in
  format_time seconds = formatTimestamp seconds /\
  format_time seconds =
    two_digits hours ++ ":" ++ two_digits minutes ++ ":" ++ two_digits secs /\
  format_time seconds = format_time (inject_Z (Qfloor seconds)) /\
  String.length (two_digits minutes) = 2%nat /\
  String.length (two_digits secs) = 2%nat /\
  (hours < 100 -> String.length (two_digits hours) = 2%nat) /\
  (100 <= hours -> (2 < String.length (two_digits hours))%nat) /\
  format_time 0 = "00:00:00" /\
  format_time 3661 = "01:01:01" /\
  format_time 59 = "00:00:59" /\
  format_time 360000 = "100:00:00".
Proof.
  intros Hs hours minutes secs.
  assert (Hz : 0 <= Qfloor seconds).
  { rewrite <- (Qfloor_Z 0). apply Qfloor_resp_le. exact Hs. }
  assert (Hh : hours = Qfloor seconds / 3600).
  { unfold hours. change 3600%Q with (inject_Z 3600).
    now rewrite Qfloor_div_Z by lia. }
  assert (Hm : minutes = Qfloor seconds mod 3600 / 60).
  { unfold minutes. change 60%Q with (inject_Z 60).
    now rewrite Qfloor_div_Z, real_mod_floor by lia. }
  assert (Hc : secs = Qfloor seconds mod 60).
  { unfold secs. now rewrite real_mod_floor by lia. }
  assert (Hzq : (0 <= inject_Z (Qfloor seconds))%Q).
  { change 0%Q with (inject_Z 0). now rewrite <- Zle_Qle. }
  assert (Hfmt : format_time seconds = formatTimestamp seconds).
  { rewrite format_time_fields, formatTimestamp_fields by assumption.
    cbv zeta.
    rewrite !format_d0_nonneg; [reflexivity | | |].
    - apply Z.mod_pos_bound. lia.
    - apply Z.div_pos; [apply Z.mod_pos_bound|]; lia.
    - apply Z.div_pos; lia. }
  repeat split; try reflexivity.
  - exact Hfmt.
  - exact Hfmt.
  - rewrite (format_time_fields seconds Hs),
      (format_time_fields (inject_Z (Qfloor seconds)) Hzq).
    cbv zeta. now rewrite Qfloor_Z.
  - apply two_digits_length. rewrite Hm. Z.div_mod_to_equations. lia.
  - apply two_digits_length. rewrite Hc. Z.div_mod_to_equations. lia.
  - intros H. apply two_digits_length. rewrite Hh in *.
    Z.div_mod_to_equations. lia.
  - apply two_digits_grows.
Qed.

Lemma format_time_spec_witness :
  format_time (7323 # 2) = formatTimestamp (7323 # 2) /\
  format_time (7323 # 2) = "01:01:01".
Proof.
  split; [|reflexivity].
  apply (format_time_spec (7323 # 2)). unfold Qle; simpl; lia.
Defined.

(** ** The log and the filesystem along a run *)

Lemma probes_of_app (l l' : list event) :
  probes_of (l ++ l') = (probes_of l ++ probes_of l')%list.
Proof.
  induction l as [|ev l IH]; [reflexivity|].
  destruct ev; simpl; now rewrite IH.
Qed.

Lemma extracts_of_app (l l' : list event) :
  extracts_of (l ++ l') = (extracts_of l ++ extracts_of l')%list.
Proof.
  induction l as [|ev l IH]; [reflexivity|].
  destruct ev; simpl; now rewrite IH.
Qed.

Lemma mkdirs_of_app (l l' : list event) :
  mkdirs_of (l ++ l') = (mkdirs_of l ++ mkdirs_of l')%list.
Proof.
  induction l as [|ev l IH]; [reflexivity|].
  destruct ev; simpl; now rewrite IH.
Qed.

(** One call of [get_video_duration]: one invocation of ffprobe, and the
    reply decides how the call ends. *)
Lemma get_video_duration_run (self : VideoClipper) (e : env) (w : world) :
  get_video_duration self e w =
  (match ffprobe e (length (probes_of (log w))) with
   | ProbeCompleted (Some d) => Return d
   | ProbeCompleted None => Raise RuntimeError_invalid_duration
   | ProbeNonZeroExit => Raise RuntimeError_failed_duration
   | ProbeNotStarted => Raise OSError
   end,
   World (fs w) (log w ++ [EvProbe (path_str (input_file self))])).
Proof.
  unfold get_video_duration, try_except, bind, run_ffprobe.
  destruct (ffprobe e _) as [[d|]| |]; reflexivity.
Qed.

Lemma print_plan_run (segments : list (string * string * string)) :
  forall i e w, exists l,
    print_plan i segments e w = (Return tt, World (fs w) (log w ++ l)) /\
    probes_of l = [] /\ extracts_of l = [] /\ mkdirs_of l = [].
Proof.
  induction segments as [|[[s t] o] rest IH]; intros i e w.
  - exists []. rewrite app_nil_r. destruct w; repeat split; reflexivity.
  - destruct (IH (S i) e (World (fs w) (log w ++ [EvPrint (MsgPlanned i s t o)])))
      as (l & Hl & Hp & Hx & Hm).
    exists (EvPrint (MsgPlanned i s t o) :: l).
    split; [|repeat split; assumption].
    cbn [print_plan]. unfold bind at 1. cbn [print emit].
    rewrite Hl. cbn [fs log]. now rewrite <- app_assoc.
Qed.

(** One turn of the processing loop. *)
Lemma process_segments_cons (self : VideoClipper) (count i : nat)
    (s t o : string) (rest : list (string * string * string))
    (e : env) (w : world) :
  process_segments self count i ((s, t, o) :: rest) e w =
  let lg := (log w ++ [EvPrint (MsgProcessing i count s t);
                       EvExtract (path_str (input_file self)) s t o])%list in
  match ffmpeg e (length (extracts_of (log w))) with
  | ExtractCompleted =>
      process_segments self count (S i) rest e
        (World ({[o]} ∪ fs w) (lg ++ [EvPrint (MsgCompleted i o)]))
  | ExtractNonZeroExit =>
      (Return false,
       World (fs w) (lg ++ [EvPrint (MsgSegmentError i); EvPrint MsgStderr]))
  | ExtractNotStarted => (Raise OSError, World (fs w) lg)
  end.
Proof.
  cbn [process_segments]. unfold bind, try_except, run_ffmpeg, print, emit.
  cbn [fs log]. rewrite extracts_of_app, app_nil_r.
  destruct (ffmpeg e _); cbn [fs log]; rewrite <- ?app_assoc; reflexivity.
Qed.

(** The loop stops at the first extraction that does not complete: the
    segments up to and including that one are the extractions attempted, and
    the outputs of the ones before it have been added to the filesystem. *)
Lemma process_segments_failure (self : VideoClipper) (count : nat) (e : env) :
  forall (segments : list (string * string * string)) (k i : nat) (w : world),
    (k < length segments)%nat ->
    (forall j, (j < k)%nat ->
       ffmpeg e (length (extracts_of (log w)) + j) = ExtractCompleted) ->
    ffmpeg e (length (extracts_of (log w)) + k) <> ExtractCompleted ->
    let r := process_segments self count i segments e w in
    fst r = (match ffmpeg e (length (extracts_of (log w)) + k) with
             | ExtractNotStarted => Raise OSError
             | _ => Return false
             end) /\
    extracts_of (log (snd r)) = (extracts_of (log w) ++ take (S k) segments)%list /\
    fs (snd r) = list_to_set (map snd (take k segments)) ∪ fs w /\
    probes_of (log (snd r)) = probes_of (log w) /\
    mkdirs_of (log (snd r)) = mkdirs_of (log w).
Proof.
  induction segments as [|[[s t] o] rest IH]; intros k i w Hk Hok Hbad;
    [simpl in Hk; lia|].
  cbv zeta. rewrite process_segments_cons. cbv zeta.
  destruct k as [|k].
  - rewrite Nat.add_0_r in *.
    destruct (ffmpeg e _) eqn:E; [congruence| |]; cbn [fst snd fs log];
      rewrite ?extracts_of_app, ?probes_of_app, ?mkdirs_of_app; simpl;
      rewrite ?app_nil_r; repeat split; try reflexivity;
      now rewrite union_empty_l_L.
  - pose proof (Hok 0%nat ltac:(lia)) as H0. rewrite Nat.add_0_r in H0.
    rewrite H0.
    match goal with |- context [process_segments _ _ _ _ _ ?w1] =>
      specialize (IH k (S i) w1) end.
    cbn [fs log] in IH.
    rewrite !extracts_of_app in IH. simpl in IH.
    rewrite app_nil_r, length_app in IH. simpl in IH.
    replace (length (extracts_of (log w)) + 1 + k)%nat
      with (length (extracts_of (log w)) + S k)%nat in IH by lia.
    destruct IH as (Hr & Hx & Hf & Hp & Hm).
    + simpl in Hk. lia.
    + intros j Hj.
      replace (length (extracts_of (log w)) + 1 + j)%nat
        with (length (extracts_of (log w)) + S j)%nat by lia.
      apply Hok. lia.
    + exact Hbad.
    + repeat split.
      * exact Hr.
      * rewrite Hx, <- app_assoc. reflexivity.
      * rewrite Hf. cbn [take map snd list_to_set].
        now rewrite (assoc_L (∪)), (comm_L (∪) _ {[o]}).
      * rewrite Hp, !probes_of_app. simpl. now rewrite !app_nil_r.
      * rewrite Hm, !mkdirs_of_app. simpl. now rewrite !app_nil_r.
Qed.

(** Whatever ffmpeg replies, the loop probes nothing and makes no directory,
    and it takes nothing away from the filesystem. *)
Lemma process_segments_frame (self : VideoClipper) (count : nat) (e : env) :
  forall (segments : list (string * string * string)) (i : nat) (w : world),
    let r := process_segments self count i segments e w in
    probes_of (log (snd r)) = probes_of (log w) /\
    mkdirs_of (log (snd r)) = mkdirs_of (log w) /\
    fs w ⊆ fs (snd r) /\
    (exists l, log (snd r) = (log w ++ l)%list).
Proof.
  induction segments as [|[[s t] o] rest IH]; intros i w; cbv zeta.
  - simpl. repeat split; try reflexivity. exists []. now rewrite app_nil_r.
  - rewrite process_segments_cons. cbv zeta.
    destruct (ffmpeg e _).
    + match goal with |- context [process_segments _ _ _ _ _ ?w1] =>
        specialize (IH (S i) w1) end.
      cbv zeta in IH. cbn [fs log] in IH.
      destruct IH as (Hp & Hm & Hf & l & Hl).
      rewrite Hp, Hm, Hl, !probes_of_app, !mkdirs_of_app. simpl.
      rewrite !app_nil_r. repeat split; try reflexivity;
        [etrans; [apply union_subseteq_r|exact Hf]|].
      rewrite <- !app_assoc. eexists. reflexivity.
    + cbn [snd fs log]. rewrite !probes_of_app, !mkdirs_of_app. simpl.
      rewrite !app_nil_r. repeat split; try reflexivity.
      rewrite <- !app_assoc. eexists. reflexivity.
    + cbn [snd fs log]. rewrite !probes_of_app, !mkdirs_of_app. simpl.
      rewrite !app_nil_r. repeat split; try reflexivity.
      eexists. reflexivity.
Qed.

Lemma VideoClipper_init_on_run (r : mkdir_reply) (input : Path) (e : env)
    (w : world) :
  VideoClipper_init_on r input e w =
  if bool_decide (path_str input ∈ fs w) then
    let dir := output_dir (clipper_of input) in
    match r with
    | MkdirCompleted =>
        (Return (clipper_of input),
         World ({[dir]} ∪ fs w) (log w ++ [EvMkdir dir]))
    | MkdirFileExists =>
        (Raise FileExistsError, World (fs w) (log w ++ [EvMkdir dir]))
    | MkdirRefused => (Raise OSError, World (fs w) (log w ++ [EvMkdir dir]))
    end
  else (Raise FileNotFoundError, w).
Proof.
  unfold VideoClipper_init_on, bind, path_exists.
  destruct (bool_decide _); [|reflexivity]. destruct r; reflexivity.
Qed.

Lemma VideoClipper_init_run (input : Path) (e : env) (w : world) :
  VideoClipper_init input e w =
  if bool_decide (path_str input ∈ fs w) then
    (Return (clipper_of input),
     World ({[output_dir (clipper_of input)]} ∪ fs w)
           (log w ++ [EvMkdir (output_dir (clipper_of input))]))
  else (Raise FileNotFoundError, w).
Proof. apply (VideoClipper_init_on_run MkdirCompleted). Qed.

Lemma get_video_duration_fails (self : VideoClipper) (e : env) (w : world) :
  (forall d, ffprobe e (length (probes_of (log w))) <> ProbeCompleted (Some d)) ->
  get_video_duration self e w =
  (Raise (probe_exn (ffprobe e (length (probes_of (log w))))),
   World (fs w) (log w ++ [EvProbe (path_str (input_file self))])).
Proof.
  intros H. rewrite get_video_duration_run.
  destruct (ffprobe e _) as [[d|]| |]; try reflexivity. now destruct (H d).
Qed.

(** [split_video] case by case: the replies to its two probes, the loop of
    the planner, the mode. *)
Lemma split_video_run (fuel : nat) (self : VideoClipper) (L : Z) (dry : bool)
    (e : env) (w : world) :
  split_video fuel self L dry e w =
  let file := path_str (input_file self) in
  let c := length (probes_of (log w)) in
  let l0 := (log w ++ [EvPrint (MsgInputFile file);
                       EvPrint (MsgOutputDirectory (output_dir self));
                       EvProbe file])%list in
  match ffprobe e c with
  | ProbeCompleted (Some d1) =>
      let l1 := (l0 ++ [EvPrint (MsgTotalDuration (format_time d1));
                        EvProbe file])%list in
      match ffprobe e (S c) with
      | ProbeCompleted (Some d2) =>
          match plan_iterations fuel d2 L with
          | Some its =>
              let segments := map (segment_tuple self) its in
              let l2 := (l1 ++ [EvPrint (MsgWillCreate (length segments))])%list in
              if dry then
                print_plan 1 segments e (World (fs w) (l2 ++ [EvPrint MsgDryRun]))
              else
                match process_segments self (length segments) 1 segments e
                        (World (fs w) (l2 ++ [EvPrint MsgStarting])) with
                | (Return true, w') =>
                    (Return tt,
                     World (fs w')
                       (log w' ++ [EvPrint (MsgAllCreated (output_dir self))]))
                | (Return false, w') => (Return tt, w')
                | (Raise x, w') => (Raise x, w')
                | (SysExit code, w') => (SysExit code, w')
                | (NoReturn, w') => (NoReturn, w')
                end
          | None => (NoReturn, World (fs w) l1)
          end
      | r2 => (Raise (probe_exn r2), World (fs w) l1)
      end
  | r1 => (Raise (probe_exn r1), World (fs w) l0)
  end.
Proof.
  cbv zeta. unfold split_video, create_segments.
  unfold bind at 1. cbn [print emit]. unfold bind at 1. cbn [print emit].
  unfold bind at 1. rewrite get_video_duration_run. cbn [fs log].
  rewrite !probes_of_app. cbn [probes_of]. rewrite !app_nil_r.
  rewrite <- !app_assoc. cbn [app].
  destruct (ffprobe e (length (probes_of (log w)))) as [[d1|]| |];
    try reflexivity.
  unfold bind at 1. cbn [print emit fs log].
  unfold bind at 1. unfold bind at 1. rewrite get_video_duration_run.
  cbn [fs log]. rewrite !probes_of_app. cbn [probes_of].
  rewrite !app_nil_r, !length_app. cbn [length].
  rewrite Nat.add_1_r. rewrite <- !app_assoc. cbn [app].
  destruct (ffprobe e (S (length (probes_of (log w))))) as [[d2|]| |];
    try reflexivity.
  destruct (plan_iterations fuel d2 L) as [its|]; [|reflexivity].
  unfold ret at 1. unfold bind at 1. cbn [print emit fs log].
  rewrite <- !app_assoc. cbn [app].
  destruct dry.
  - unfold bind at 1. cbn [print emit fs log].
    rewrite <- !app_assoc. reflexivity.
  - unfold bind at 1. cbn [print emit fs log]. unfold bind at 1.
    rewrite <- !app_assoc. cbn [app].
    destruct (process_segments _ _ _ _ _ _) as [[[|]|x|code|] w'];
      reflexivity.
Qed.

(** [main] with a positive duration: the constructor, and when it returns
    [split_video], and the handler of [main] around both. *)
Lemma run_on_positive (r : mkdir_reply) (fuel : nat) (args : Args) (e : env)
    (files : gset string) :
  0 < arg_duration args ->
  run_on r fuel args e files =
  let self := clipper_of (arg_input_file args) in
  if bool_decide (path_str (arg_input_file args) ∈ files) then
    match r with
    | MkdirCompleted =>
        main_handler
          (split_video fuel self (arg_duration args) (arg_dry_run args) e
             (World ({[output_dir self]} ∪ files) [EvMkdir (output_dir self)]))
    | MkdirFileExists =>
        (SysExit 1,
         World files [EvMkdir (output_dir self);
                      EvPrint (MsgError FileExistsError)])
    | MkdirRefused =>
        (SysExit 1,
         World files [EvMkdir (output_dir self); EvPrint (MsgError OSError)])
    end
  else
    (SysExit 1, World files [EvPrint (MsgError FileNotFoundError)]).
Proof.
  intros H. unfold run_on, main_on.
  destruct (Z.leb_spec (arg_duration args) 0); [lia|].
  unfold try_except, bind at 1. rewrite VideoClipper_init_on_run. cbn [fs log].
  destruct (bool_decide _); [|reflexivity]. cbv zeta. destruct r; try reflexivity.
  cbn [app].
  destruct (split_video _ _ _ _ _ _) as [[[]|x|code|] w']; reflexivity.
Qed.

Lemma run_positive (fuel : nat) (args : Args) (e : env) (files : gset string) :
  0 < arg_duration args ->
  run fuel args e files =
  let self := clipper_of (arg_input_file args) in
  if bool_decide (path_str (arg_input_file args) ∈ files) then
    main_handler
      (split_video fuel self (arg_duration args) (arg_dry_run args) e
         (World ({[output_dir self]} ∪ files) [EvMkdir (output_dir self)]))
  else
    (SysExit 1, World files [EvPrint (MsgError FileNotFoundError)]).
Proof. apply (run_on_positive MkdirCompleted). Qed.

(** [main] with a duration that is not positive. *)
Lemma run_on_nonpositive (r : mkdir_reply) (fuel : nat) (args : Args)
    (e : env) (files : gset string) :
  arg_duration args <= 0 ->
  run_on r fuel args e files =
  (SysExit 1, World files [EvPrint MsgDurationMustBePositive]).
Proof.
  intros H. unfold run_on, main_on.
  destruct (Z.leb_spec (arg_duration args) 0); [|lia]. reflexivity.
Qed.

Lemma run_nonpositive (fuel : nat) (args : Args) (e : env) (files : gset string) :
  arg_duration args <= 0 ->
  run fuel args e files =
  (SysExit 1, World files [EvPrint MsgDurationMustBePositive]).
Proof. apply (run_on_nonpositive MkdirCompleted). Qed.

Lemma main_handler_frame (r : outcome unit * world) :
  probes_of (log (snd (main_handler r))) = probes_of (log (snd r)) /\
  extracts_of (log (snd (main_handler r))) = extracts_of (log (snd r)) /\
  mkdirs_of (log (snd (main_handler r))) = mkdirs_of (log (snd r)) /\
  fs (snd (main_handler r)) = fs (snd r) /\
  (exists l, log (snd (main_handler r)) = (log (snd r) ++ l)%list).
Proof.
  destruct r as [[[]|x|code|] w]; cbn [main_handler snd fs log];
    rewrite ?probes_of_app, ?extracts_of_app, ?mkdirs_of_app, ?app_nil_r;
    repeat split; try reflexivity;
    try (exists []; now rewrite app_nil_r).
  eexists; reflexivity.
Qed.

(** What [split_video] does to the outside, whatever the replies: it probes
    once or twice, makes no directory, removes nothing, and only adds to the
    log. *)
Lemma split_video_frame (fuel : nat) (self : VideoClipper) (L : Z) (dry : bool)
    (e : env) (w : world) :
  let r := split_video fuel self L dry e w in
  probes_of (log (snd r)) =
    (probes_of (log w) ++
     probes_of_split_video (path_str (input_file self))
       (ffprobe e (length (probes_of (log w)))))%list /\
  mkdirs_of (log (snd r)) = mkdirs_of (log w) /\
  fs w ⊆ fs (snd r) /\
  (exists l, log (snd r) = (log w ++ l)%list).
Proof.
  cbv zeta. rewrite split_video_run. cbv zeta.
  destruct (ffprobe e (length (probes_of (log w)))) as [[d1|]| |];
    cbn [snd fs log probes_of_split_video];
    try (rewrite !probes_of_app, !mkdirs_of_app; cbn [probes_of mkdirs_of];
         rewrite ?app_nil_r; repeat split; try reflexivity;
         eexists; reflexivity).
  destruct (ffprobe e (S (length (probes_of (log w))))) as [[d2|]| |];
    cbn [snd fs log];
    try (rewrite !probes_of_app, !mkdirs_of_app; cbn [probes_of mkdirs_of];
         rewrite ?app_nil_r, <- ?app_assoc; repeat split; try reflexivity;
         eexists; rewrite <- ?app_assoc; reflexivity).
  destruct (plan_iterations fuel d2 L) as [its|]; cbn [snd fs log];
    [|rewrite !probes_of_app, !mkdirs_of_app; cbn [probes_of mkdirs_of];
      rewrite ?app_nil_r, <- ?app_assoc; repeat split; try reflexivity;
      eexists; rewrite <- ?app_assoc; reflexivity].
  destruct dry.
  - match goal with |- context [print_plan ?i ?s ?e ?w1] =>
      destruct (print_plan_run s i e w1) as (l & -> & Hp & Hx & Hm) end.
    cbn [snd fs log].
    rewrite !probes_of_app, !mkdirs_of_app, Hp, Hm. cbn [probes_of mkdirs_of].
    rewrite ?app_nil_r, <- ?app_assoc. repeat split; try reflexivity.
    eexists; rewrite <- ?app_assoc; reflexivity.
  - match goal with |- context [process_segments ?c ?n ?i ?s ?e ?w1] =>
      pose proof (process_segments_frame c n e s i w1) as Hfr;
      destruct (process_segments c n i s e w1) as [o w'] end.
    cbv zeta in Hfr. cbn [snd fs log] in Hfr.
    destruct Hfr as (Hp & Hm & Hf & l & Hl).
    rewrite !probes_of_app in Hp. rewrite !mkdirs_of_app in Hm.
    cbn [probes_of mkdirs_of] in Hp, Hm.
    rewrite ?app_nil_r in Hp. rewrite !app_nil_r in Hm.
    rewrite <- ?app_assoc in Hp. cbn [app] in Hp.
    destruct o as [[|]|x|code|]; cbn [snd fs log];
      rewrite ?probes_of_app, ?mkdirs_of_app, ?Hp, ?Hm;
      cbn [probes_of mkdirs_of]; rewrite ?app_nil_r;
      (split; [|split; [|split]]; [reflexivity | reflexivity | exact Hf |]);
      rewrite Hl, <- ?app_assoc; eexists; reflexivity.
Qed.

(** When every extraction completes the loop goes through all the segments. *)
Lemma process_segments_success (self : VideoClipper) (count : nat) (e : env) :
  forall (segments : list (string * string * string)) (i : nat) (w : world),
    (forall j, (j < length segments)%nat ->
       ffmpeg e (length (extracts_of (log w)) + j) = ExtractCompleted) ->
    let r := process_segments self count i segments e w in
    fst r = Return true /\
    extracts_of (log (snd r)) = (extracts_of (log w) ++ segments)%list /\
    fs (snd r) = list_to_set (map snd segments) ∪ fs w.
Proof.
  induction segments as [|[[s t] o] rest IH]; intros i w Hok; cbv zeta.
  - cbn. rewrite app_nil_r, union_empty_l_L. repeat split; reflexivity.
  - rewrite process_segments_cons. cbv zeta.
    pose proof (Hok 0%nat ltac:(simpl; lia)) as H0.
    rewrite Nat.add_0_r in H0. rewrite H0.
    match goal with |- context [process_segments _ _ _ _ _ ?w1] =>
      specialize (IH (S i) w1) end.
    cbv zeta in IH. cbn [fs log] in IH.
    rewrite !extracts_of_app in IH. cbn [extracts_of] in IH.
    rewrite app_nil_r, length_app in IH. cbn [length app] in IH.
    destruct IH as (Hr & Hx & Hf).
    + intros j Hj.
      replace (length (extracts_of (log w)) + 1 + j)%nat
        with (length (extracts_of (log w)) + S j)%nat by lia.
      apply Hok. simpl. lia.
    + split; [exact Hr|]. split.
      * rewrite Hx, <- app_assoc. reflexivity.
      * rewrite Hf. cbn [map snd list_to_set].
        now rewrite (assoc_L (∪)), (comm_L (∪) _ {[o]}).
Qed.

(** A run in which both probes give a duration and every extraction completes
    ends with exit status 0, every segment of the plan extracted. *)
Lemma full_success_exits_zero (fuel : nat) (args : Args) (e : env)
    (files : gset string) (d1 d2 : Q) (its : list iteration) :
  0 < arg_duration args ->
  arg_dry_run args = false ->
  path_str (arg_input_file args) ∈ files ->
  ffprobe e 0 = ProbeCompleted (Some d1) ->
  ffprobe e 1 = ProbeCompleted (Some d2) ->
  plan_iterations fuel d2 (arg_duration args) = Some its ->
  (forall j, (j < length its)%nat -> ffmpeg e j = ExtractCompleted) ->
  let r := run fuel args e files in
  exit_status (fst r) = Some 0 /\
  extracts_of (log (snd r)) =
    map (segment_tuple (clipper_of (arg_input_file args))) its.
Proof.
  intros HL Hdry Hin Hp1 Hp2 Hplan Hok r.
  unfold r. rewrite run_positive by assumption. cbv zeta.
  rewrite bool_decide_eq_true_2 by assumption.
  rewrite split_video_run. cbv zeta. cbn [log probes_of length].
  rewrite Hp1, Hp2, Hplan, Hdry.
  match goal with |- context [process_segments ?c ?n ?i ?s ?e ?w1] =>
    pose proof (process_segments_success c n e s i w1) as Hs;
    destruct (process_segments c n i s e w1) as [o w'] end.
  cbv zeta in Hs. cbn [fst snd fs log] in Hs.
  rewrite !extracts_of_app in Hs. cbn [extracts_of app length] in Hs.
  destruct Hs as (Ho & Hx & _).
  - intros j Hj. rewrite length_map in Hj. cbn [Nat.add]. now apply Hok.
  - subst o. cbn [main_handler fst snd log]. split; [reflexivity|].
    rewrite extracts_of_app. cbn [extracts_of]. now rewrite app_nil_r.
Qed.

(** ** [str_of_nonneg] writes its argument *)

Lemma digits_value_app (s t : string) : forall acc,
  digits_value acc (s ++ t) = digits_value (digits_value acc s) t.
Proof.
  induction s as [|c s IH]; intros acc; [reflexivity|].
  rewrite append_String. simpl. apply IH.
Qed.

Lemma digit_char_value (d : Z) :
  0 <= d < 10 -> Z.of_N (N_of_ascii (digit_char d)) - 48 = d.
Proof.
  intros H. unfold digit_char. rewrite N_ascii_embedding by lia. lia.
Qed.

Lemma decimal_digits_value (fuel : nat) : forall n,
  0 <= n < 10 ^ Z.of_nat fuel ->
  digits_value 0 (decimal_digits fuel n) = n.
Proof.
  induction fuel as [|fuel IH]; intros n Hn.
  - change (10 ^ Z.of_nat 0) with 1 in Hn. simpl. lia.
  - rewrite Nat2Z.inj_succ, Z.pow_succ_r in Hn by lia.
    destruct (Z.lt_ge_cases n 10).
    + rewrite decimal_digits_lt10 by assumption. simpl.
      rewrite digit_char_value; lia.
    + rewrite decimal_digits_ge10, digits_value_app by assumption.
      rewrite IH by (split; [apply Z.div_pos; lia
                            | apply Z.div_lt_upper_bound; lia]).
      simpl. rewrite digit_char_value by (apply Z.mod_pos_bound; lia).
      Z.div_mod_to_equations. lia.
Qed.

Lemma str_of_nonneg_value (n : Z) :
  0 <= n -> digits_value 0 (str_of_nonneg n) = n.
Proof.
  intros Hn. apply decimal_digits_value. split; [assumption|].
  destruct (Z.eq_dec n 0) as [->|Hz]; [reflexivity|].
  rewrite Nat2Z.inj_succ, Z2Nat.id by apply Z.log2_nonneg.
  pose proof (Z.log2_spec n ltac:(lia)) as [_ Hlog].
  apply Z.lt_le_trans with (2 ^ Z.succ (Z.log2 n)); [assumption|].
  apply Z.pow_le_mono_l. pose proof (Z.log2_nonneg n). lia.
Qed.

(** ** The tuples that [create_segments] returns *)

Lemma create_segments_run (fuel : nat) (self : VideoClipper) (L : Z)
    (e : env) (w : world) (d : Q) :
  ffprobe e (length (probes_of (log w))) = ProbeCompleted (Some d) ->
  create_segments fuel self L e w =
  (match plan_iterations fuel d L with
   | Some its => Return (map (segment_tuple self) its)
   | None => NoReturn
   end,
   World (fs w) (log w ++ [EvProbe (path_str (input_file self))])).
Proof.
  intros H. unfold create_segments, bind.
  rewrite get_video_duration_run, H.
  destruct (plan_iterations fuel d L); reflexivity.
Qed.

Lemma format_time_Qeq (x y : Q) :
  (0 <= x)%Q -> x == y -> format_time x = format_time y.
Proof.
  intros Hx H.
  rewrite (format_time_fields x), (format_time_fields y) by lra. cbv zeta.
  now rewrite (Qfloor_comp x y H).
Qed.

(** In the tuples the boundaries are written by [format_time]: each end
    string is the next start string, the first start string is ["00:00:00"]
    and the last end string is the total duration cut to whole seconds. *)
Lemma create_segments_strings (self : VideoClipper) (total : Q) (L : Z)
    (fuel : nat) (its : list iteration) :
  plan_iterations fuel total L = Some its ->
  let segments := map (segment_tuple self) its in
  (forall i t u, segments !! i = Some t -> segments !! S i = Some u ->
                 t.1.2 = u.1.1) /\
  (forall t, head segments = Some t -> t.1.1 = "00:00:00") /\
  (forall t, (0 < total)%Q -> last segments = Some t ->
             t.1.2 = format_time (inject_Z (Qfloor total))).
Proof.
  intros Hplan segments.
  pose proof (segment_loop_chained _ _ _ _ _ _ Hplan) as Hc.
  split; [|split].
  - intros i t u Ht Hu. unfold segments in Ht, Hu.
    rewrite list_lookup_fmap in Ht, Hu.
    destruct (its !! i) as [a|] eqn:Ea; [|discriminate].
    destruct (its !! S i) as [b|] eqn:Eb; [|discriminate].
    injection Ht as <-. injection Hu as <-. cbn.
    now rewrite (chained_adjacent its _ _ _ _ Hc Ea Eb).
  - intros t Ht. destruct its as [|a rest]; [discriminate|].
    injection Ht as <-. cbn. destruct Hc as [-> _]. reflexivity.
  - intros t Hpos Ht.
    destruct (segment_loop_last _ _ _ _ _ _ Hplan Hpos) as (lst & Hl & He).
    unfold segments in Ht. rewrite fmap_last, Hl in Ht. injection Ht as <-.
    assert (Hz : (0 <= inject_Z (Qfloor total))%Q).
    { change 0%Q with (inject_Z 0). rewrite <- Zle_Qle, <- (Qfloor_Z 0).
      apply Qfloor_resp_le. change (inject_Z 0) with 0%Q. lra. }
    cbn. rewrite (format_time_Qeq _ total) by lra.
    rewrite (format_time_fields total), (format_time_fields _ Hz) by lra.
    cbv zeta. now rewrite Qfloor_Z.
Qed.

(** ** The planner on a segment length that is not positive *)

Lemma segment_loop_diverges (total : Q) (L : Z) :
  L <= 0 -> forall fuel s n,
    (s < total)%Q -> segment_loop fuel total L s n = None.
Proof.
  intros HL. induction fuel as [|fuel IH]; intros s n Hs; [reflexivity|].
  assert (Hq : (inject_Z L <= 0)%Q).
  { change 0%Q with (inject_Z 0). now rewrite <- Zle_Qle. }
  simpl. destruct (Qlt_le_dec s total) as [_|Hge]; [|lra].
  rewrite IH; [reflexivity|].
  unfold py_min. destruct (Qlt_le_dec total (s + inject_Z L)); lra.
Qed.

(** C4, as the code has it: [main] turns a segment length that is not
    positive away with exit status 1 before it constructs the clipper, so
    nothing is planned, no external tool is called and the filesystem is left
    alone; the number is not clamped.  The planner has no check of its own:
    with such a length it never returns on a positive total duration, and
    returns the empty plan otherwise. *)
Theorem nonpositive_duration_rejected_by_main
    (fuel : nat) (args : Args) (e : env) (files : gset string) :
  arg_duration args <= 0 ->
  run fuel args e files =
    (SysExit 1, World files [EvPrint MsgDurationMustBePositive]) /\
  exit_status (fst (run fuel args e files)) = Some 1 /\
  (forall total n, (0 < total)%Q ->
     plan_iterations n total (arg_duration args) = None) /\
  (forall total n, (total <= 0)%Q ->
     plan_iterations (S n) total (arg_duration args) = Some []).
Proof.
  intros H. rewrite run_nonpositive by assumption.
  split; [reflexivity|]. split; [reflexivity|]. split.
  - intros total n Ht. now apply segment_loop_diverges.
  - intros total n Ht. unfold plan_iterations. simpl.
    destruct (Qlt_le_dec 0 total); [lra|reflexivity].
Qed.

Lemma nonpositive_duration_rejected_by_main_witness :
  run 10 (MkArgs example_input 0 false) example_env example_files =
    (SysExit 1, World example_files [EvPrint MsgDurationMustBePositive]) /\
  plan_iterations 10 100 0 = None.
Proof.
  pose proof (nonpositive_duration_rejected_by_main 10
                (MkArgs example_input 0 false) example_env example_files
                ltac:(simpl; lia)) as (H1 & _ & H2 & _).
  split; [exact H1|]. apply H2. reflexivity.
Defined.

(** C4 as stated fails: called with a segment length that is not positive,
    [create_segments] raises nothing; it returns the empty plan when the
    duration is 0, and on a duration of 100 seconds it has not returned after
    any number of iterations. *)
Lemma planner_does_not_reject :
  fst (create_segments 10 (clipper_of example_input) (-5)
         (Env (fun _ => ProbeCompleted (Some 0%Q)) (ffmpeg example_env))
         (World example_files [])) = Return [] /\
  (forall fuel,
     fst (create_segments fuel (clipper_of example_input) 0
            example_env (World example_files [])) = NoReturn).
Proof.
  split; [reflexivity|].
  intros fuel. unfold create_segments, bind.
  rewrite get_video_duration_run. cbn [example_env ffprobe].
  unfold plan_iterations.
  rewrite (segment_loop_diverges 100 0 ltac:(lia) fuel 0%Q 1 ltac:(reflexivity)).
  reflexivity.
Qed.

(** ** A run whose extraction fails *)

Lemma forallb_seq_completed (e : env) (k : nat) :
  forallb (fun j => completed (ffmpeg e j)) (seq 0 k) = true ->
  forall j, (j < k)%nat -> ffmpeg e j = ExtractCompleted.
Proof.
  intros H j Hj. rewrite forallb_forall in H.
  specialize (H j ltac:(apply in_seq; lia)).
  destruct (ffmpeg e j); [reflexivity|discriminate|discriminate].
Qed.

(** A run that plans [its] and whose extraction of index [k] is the first
    that does not complete. *)
Lemma run_failure (fuel : nat) (args : Args) (e : env) (files : gset string)
    (d1 d2 : Q) (its : list iteration) (k : nat) :
  0 < arg_duration args ->
  arg_dry_run args = false ->
  path_str (arg_input_file args) ∈ files ->
  ffprobe e 0 = ProbeCompleted (Some d1) ->
  ffprobe e 1 = ProbeCompleted (Some d2) ->
  plan_iterations fuel d2 (arg_duration args) = Some its ->
  (k < length its)%nat ->
  forallb (fun j => completed (ffmpeg e j)) (seq 0 k) = true ->
  completed (ffmpeg e k) = false ->
  let self := clipper_of (arg_input_file args) in
  let segments := map (segment_tuple self) its in
  let r := run fuel args e files in
  fst r = (match ffmpeg e k with
           | ExtractNotStarted => SysExit 1
           | _ => Return tt
           end) /\
  extracts_of (log (snd r)) = take (S k) segments /\
  fs (snd r) =
    list_to_set (map snd (take k segments)) ∪ ({[output_dir self]} ∪ files).
Proof.
  intros HL Hdry Hin Hp1 Hp2 Hplan Hk Hok Hbad self segments r.
  unfold r. rewrite run_positive by assumption. cbv zeta.
  rewrite bool_decide_eq_true_2 by assumption.
  rewrite split_video_run. cbv zeta. cbn [log probes_of length].
  rewrite Hp1, Hp2, Hplan, Hdry. fold self. fold segments.
  match goal with |- context [process_segments ?c ?n ?i ?s ?e ?w1] =>
    pose proof (process_segments_failure c n e s k i w1) as Hf;
    destruct (process_segments c n i s e w1) as [o w'] end.
  cbv zeta in Hf. cbn [fst snd fs log] in Hf.
  rewrite !extracts_of_app in Hf. cbn [extracts_of app length] in Hf.
  destruct Hf as (Ho & Hx & Hfs & _ & _).
  - unfold segments. rewrite length_map. exact Hk.
  - intros j Hj. cbn [Nat.add]. now apply forallb_seq_completed with k.
  - cbn [Nat.add]. intros E. rewrite E in Hbad. discriminate.
  - cbn [Nat.add] in Ho. subst o.
    destruct (ffmpeg e k); [discriminate| |]; cbn [main_handler fst snd fs log];
      (split; [reflexivity|]); rewrite ?extracts_of_app; cbn [extracts_of];
      rewrite ?app_nil_r; split; assumption.
Qed.

(** C6: when the extraction of some segment fails, none of the segments after
    it is extracted, and the files written for the segments before it are
    still there at the end of the run; the run takes nothing away from the
    filesystem.  Segments are counted from 0 here. *)
Theorem stops_at_first_failed_extraction
    (fuel : nat) (args : Args) (e : env) (files : gset string)
    (d1 d2 : Q) (k : nat) :
  0 < arg_duration args ->
  arg_dry_run args = false ->
  path_str (arg_input_file args) ∈ files ->
  ffprobe e 0 = ProbeCompleted (Some d1) ->
  ffprobe e 1 = ProbeCompleted (Some d2) ->
  (0 < d2)%Q ->
  (Z.to_nat (Qceiling (d2 / inject_Z (arg_duration args))) < fuel)%nat ->
  (k < Z.to_nat (Qceiling (d2 / inject_Z (arg_duration args))))%nat ->
  forallb (fun j => completed (ffmpeg e j)) (seq 0 k) = true ->
  completed (ffmpeg e k) = false ->
  exists its,
    plan_iterations fuel d2 (arg_duration args) = Some its /\
    let segments := map (segment_tuple (clipper_of (arg_input_file args))) its in
    let w' := snd (run fuel args e files) in
    extracts_of (log w') = take (S k) segments /\
    (forall t, t ∈ take k segments -> t.2 ∈ fs w') /\
    files ⊆ fs w'.
Proof.
  intros HL Hdry Hin Hp1 Hp2 Hd Hfuel Hk Hok Hbad.
  destruct (plan_iterations_returns d2 _ HL Hd fuel Hfuel) as (its & Hplan & Hlen).
  exists its. split; [exact Hplan|]. cbv zeta.
  destruct (run_failure fuel args e files d1 d2 its k) as (_ & Hx & Hfs);
    try assumption; [lia|].
  split; [exact Hx|]. rewrite Hfs.
  split; [|etrans; [|apply union_subseteq_r]; apply union_subseteq_r].
  intros t Ht. apply elem_of_union_l, elem_of_list_to_set, list_elem_of_fmap.
  exists t. split; [reflexivity|exact Ht].
Qed.

Lemma stops_at_first_failed_extraction_witness :
  exists its,
    plan_iterations 10 100 30 = Some its /\
    let segments := map (segment_tuple (clipper_of example_input)) its in
    let w' := snd (run 10 (MkArgs example_input 30 false) example_env
                     example_files) in
    extracts_of (log w') = take 2 segments /\
    (forall t, t ∈ take 1 segments -> t.2 ∈ fs w') /\
    example_files ⊆ fs w'.
Proof.
  apply (stops_at_first_failed_extraction 10 (MkArgs example_input 30 false)
           example_env example_files 100 100 1);
    try reflexivity; try (simpl; lia); try (vm_compute; lia).
Defined.

(** C5, where the code departs from it: an extraction that exits with a
    non-zero status ends the run with exit status 0. *)
Theorem failed_extraction_exits_zero
    (fuel : nat) (args : Args) (e : env) (files : gset string)
    (d1 d2 : Q) (k : nat) :
  0 < arg_duration args ->
  arg_dry_run args = false ->
  path_str (arg_input_file args) ∈ files ->
  ffprobe e 0 = ProbeCompleted (Some d1) ->
  ffprobe e 1 = ProbeCompleted (Some d2) ->
  (0 < d2)%Q ->
  (Z.to_nat (Qceiling (d2 / inject_Z (arg_duration args))) < fuel)%nat ->
  (k < Z.to_nat (Qceiling (d2 / inject_Z (arg_duration args))))%nat ->
  forallb (fun j => completed (ffmpeg e j)) (seq 0 k) = true ->
  ffmpeg e k = ExtractNonZeroExit ->
  exit_status (fst (run fuel args e files)) = Some 0.
Proof.
  intros HL Hdry Hin Hp1 Hp2 Hd Hfuel Hk Hok Hbad.
  destruct (plan_iterations_returns d2 _ HL Hd fuel Hfuel) as (its & Hplan & Hlen).
  destruct (run_failure fuel args e files d1 d2 its k) as (Ho & _);
    try assumption; [lia|now rewrite Hbad|].
  rewrite Ho, Hbad. reflexivity.
Qed.

Lemma failed_extraction_exits_zero_witness :
  exit_status
    (fst (run 10 (MkArgs example_input 30 false) example_env example_files))
  = Some 0.
Proof.
  apply (failed_extraction_exits_zero 10 (MkArgs example_input 30 false)
           example_env example_files 100 100 1);
    try reflexivity; try (simpl; lia); try (vm_compute; lia).
Defined.

(** The other failures do end the run with exit status 1: a duration that is
    not positive, a missing input file, a probe that gives no duration. *)
Lemma other_failures_exit_one
    (fuel : nat) (args : Args) (e : env) (files : gset string) :
  (arg_duration args <= 0 \/
   path_str (arg_input_file args) ∉ files \/
   (forall d, ffprobe e 0 <> ProbeCompleted (Some d))) ->
  exit_status (fst (run fuel args e files)) = Some 1.
Proof.
  intros H. destruct (Z.le_gt_cases (arg_duration args) 0) as [Hn|Hp].
  { now rewrite run_nonpositive. }
  destruct H as [H|[H|H]]; [lia| |]; rewrite run_positive by lia; cbv zeta.
  - now rewrite bool_decide_eq_false_2.
  - destruct (bool_decide _); [|reflexivity].
    rewrite split_video_run. cbv zeta. cbn [log probes_of length].
    destruct (ffprobe e 0) as [[d|]| |] eqn:E; try reflexivity.
    now destruct (H d).
Qed.

(** ** How often a run probes *)

(** C7, as the code has it: each call of [get_video_duration] invokes ffprobe
    once and touches nothing else; a run that gets to [split_video], a dry run
    too, calls it twice when the first call gives a duration (in
    [split_video] for the total that is printed, in [create_segments] for the
    plan) and once when the first call fails; the plan is made from the
    duration that the call in [create_segments] gives. *)
Theorem probes_per_call_and_run
    (fuel : nat) (args : Args) (e : env) (files : gset string) :
  0 < arg_duration args ->
  path_str (arg_input_file args) ∈ files ->
  (forall self w,
     let w' := snd (get_video_duration self e w) in
     probes_of (log w') =
       (probes_of (log w) ++ [path_str (input_file self)])%list /\
     extracts_of (log w') = extracts_of (log w) /\
     mkdirs_of (log w') = mkdirs_of (log w) /\
     fs w' = fs w) /\
  probes_of (log (snd (run fuel args e files))) =
    probes_of_split_video (path_str (arg_input_file args)) (ffprobe e 0) /\
  (forall self w d,
     ffprobe e (length (probes_of (log w))) = ProbeCompleted (Some d) ->
     fst (create_segments fuel self (arg_duration args) e w) =
       match plan_iterations fuel d (arg_duration args) with
       | Some its => Return (map (segment_tuple self) its)
       | None => NoReturn
       end).
Proof.
  intros HL Hin. split; [|split].
  - intros self w. cbv zeta. rewrite get_video_duration_run. cbn [snd fs log].
    rewrite probes_of_app, extracts_of_app, mkdirs_of_app. cbn.
    rewrite !app_nil_r. repeat split; reflexivity.
  - rewrite run_positive by assumption. cbv zeta.
    rewrite bool_decide_eq_true_2 by assumption.
    destruct (main_handler_frame
                (split_video fuel (clipper_of (arg_input_file args))
                   (arg_duration args) (arg_dry_run args) e
                   (World ({[output_dir (clipper_of (arg_input_file args))]} ∪ files)
                      [EvMkdir (output_dir (clipper_of (arg_input_file args)))])))
      as (-> & _).
    destruct (split_video_frame fuel (clipper_of (arg_input_file args))
                (arg_duration args) (arg_dry_run args) e
                (World ({[output_dir (clipper_of (arg_input_file args))]} ∪ files)
                   [EvMkdir (output_dir (clipper_of (arg_input_file args)))]))
      as (-> & _).
    reflexivity.
  - intros self w d H. now rewrite (create_segments_run _ _ _ _ _ d).
Qed.

Lemma probes_per_call_and_run_witness :
  probes_of
    (log (snd (run 10 (MkArgs example_input 30 true) example_env example_files)))
  = ["/data/talk.mp4"; "/data/talk.mp4"].
Proof.
  exact (proj1 (proj2 (probes_per_call_and_run 10
                         (MkArgs example_input 30 true)
                         example_env example_files
                         ltac:(simpl; lia) ltac:(reflexivity)))).
Defined.

(** C7 as stated fails: a run probes the duration twice, a dry run too. *)
Lemma run_probes_twice :
  length (probes_of (log (snd (run 10 (MkArgs example_input 30 false)
                                 example_env example_files)))) = 2%nat /\
  length (probes_of (log (snd (run 10 (MkArgs example_input 30 true)
                                 example_env example_files)))) = 2%nat.
Proof. split; reflexivity. Qed.

(** ** The names of the output files *)

Lemma output_filename_three_digits (self : VideoClipper) (n : Z) :
  0 <= n < 1000 ->
  output_filename self n =
  stem (input_file self) ++ "_segment_" ++ three_digits n ++ ".mp4".
Proof. intros H. unfold output_filename. now rewrite format_d0_3. Qed.

Lemma output_filename_compare (self : VideoClipper) (m n : Z) :
  0 <= m -> m < n -> n < 1000 ->
  String.compare (output_filename self m) (output_filename self n) = Lt.
Proof.
  intros H0 H1 H2. rewrite !output_filename_three_digits by lia.
  rewrite !compare_common_prefix. now apply three_digits_compare.
Qed.

(** C8 as stated fails: in the plan of 1000 one-second segments the name of
    segment 1000 has four digits and sorts before the name of segment 999. *)
Lemma segment_1000_sorts_before_999 :
  exists its a b,
    plan_iterations 1001 1000 1 = Some its /\
    its !! 998%nat = Some a /\ its !! 999%nat = Some b /\
    output_filename (clipper_of example_input) (it_number a)
      = "talk_segment_999.mp4" /\
    output_filename (clipper_of example_input) (it_number b)
      = "talk_segment_1000.mp4" /\
    String.compare (output_filename (clipper_of example_input) (it_number a))
                   (output_filename (clipper_of example_input) (it_number b))
      = Gt.
Proof.
  destruct (plan_iterations_returns 1000 1 ltac:(lia) ltac:(reflexivity) 1001)
    as (its & E & Hlen); [vm_compute; lia|].
  change (Z.to_nat (Qceiling (1000 / inject_Z 1))) with 1000%nat in Hlen.
  destruct (lookup_lt_is_Some_2 its 998) as [a Ea]; [lia|].
  destruct (lookup_lt_is_Some_2 its 999) as [b Eb]; [lia|].
  destruct (segment_loop_lookup _ _ _ _ _ _ _ _ E Ea) as (_ & Hna & _).
  destruct (segment_loop_lookup _ _ _ _ _ _ _ _ E Eb) as (_ & Hnb & _).
  exists its, a, b. rewrite Hna, Hnb. repeat split; try assumption; reflexivity.
Qed.

(** ** Reading back what the formats write *)

Lemma append_inv_head (p a b : string) : p ++ a = p ++ b -> a = b.
Proof.
  induction p as [|c p IH]; [trivial|].
  rewrite !append_String. intros H. injection H as H. now apply IH.
Qed.

Lemma append_inv_tail (s : string) : forall a b, a ++ s = b ++ s -> a = b.
Proof.
  induction a as [|c a IH]; intros [|d b] H.
  - reflexivity.
  - apply (f_equal String.length) in H.
    rewrite append_empty, string_length_app in H. simpl in H. lia.
  - apply (f_equal String.length) in H.
    rewrite append_empty, string_length_app in H. simpl in H. lia.
  - rewrite !append_String in H. injection H as -> H. f_equal. now apply IH.
Qed.

Lemma digits_value_zeros (k : nat) (s : string) :
  digits_value 0 (zeros k ++ s) = digits_value 0 s.
Proof.
  induction k as [|k IH]; [reflexivity|].
  cbn [zeros]. rewrite append_String. exact IH.
Qed.

Lemma format_d0_value (w : nat) (n : Z) :
  0 <= n -> digits_value 0 (format_d0 w n) = n.
Proof.
  intros H. rewrite format_d0_nonneg by assumption. unfold zero_pad.
  rewrite digits_value_zeros. now apply str_of_nonneg_value.
Qed.

Lemma append_assoc (a b c : string) : (a ++ b) ++ c = a ++ (b ++ c).
Proof.
  induction a as [|x a IH]; [reflexivity|].
  rewrite !append_String. now rewrite IH.
Qed.

Lemma append_empty_r (a : string) : a ++ "" = a.
Proof.
  induction a as [|x a IH]; [reflexivity|]. rewrite append_String. now rewrite IH.
Qed.

Lemma digit_char_not_colon (d : Z) :
  0 <= d < 10 -> Ascii.eqb (digit_char d) ":" = false.
Proof.
  intros H. apply Ascii.eqb_neq. intros E.
  apply (f_equal N_of_ascii) in E. unfold digit_char in E.
  rewrite N_ascii_embedding in E by lia. cbn in E. lia.
Qed.

Lemma timestamp_fields_digit (d : Z) (rest : string) (acc : Z) :
  0 <= d < 10 ->
  timestamp_fields (String (digit_char d) rest) acc =
  timestamp_fields rest (10 * acc + d).
Proof.
  intros H. cbn [timestamp_fields].
  now rewrite digit_char_not_colon, digit_char_value by assumption.
Qed.

Lemma timestamp_fields_decimal (fuel : nat) : forall n rest acc,
  0 <= n ->
  timestamp_fields (decimal_digits fuel n ++ rest) acc =
  timestamp_fields rest (digits_value acc (decimal_digits fuel n)).
Proof.
  induction fuel as [|fuel IH]; intros n rest acc Hn; [reflexivity|].
  destruct (Z.lt_ge_cases n 10).
  - rewrite decimal_digits_lt10 by assumption.
    rewrite append_String, append_empty, timestamp_fields_digit by lia.
    cbn [digits_value]. now rewrite digit_char_value by lia.
  - rewrite decimal_digits_ge10 by assumption.
    rewrite append_assoc, IH by (apply Z.div_pos; lia).
    rewrite append_String, append_empty, digits_value_app.
    rewrite timestamp_fields_digit by (apply Z.mod_pos_bound; lia).
    cbn [digits_value].
    now rewrite digit_char_value by (apply Z.mod_pos_bound; lia).
Qed.

Lemma timestamp_fields_zeros (k : nat) : forall rest,
  timestamp_fields (zeros k ++ rest) 0 = timestamp_fields rest 0.
Proof.
  induction k as [|k IH]; intros rest; [reflexivity|].
  cbn [zeros]. rewrite append_String.
  change "0"%char with (digit_char 0).
  rewrite timestamp_fields_digit by lia. apply IH.
Qed.

Lemma timestamp_fields_format (w : nat) (z : Z) (rest : string) :
  0 <= z ->
  timestamp_fields (format_d0 w z ++ rest) 0 = timestamp_fields rest z.
Proof.
  intros Hz. rewrite format_d0_nonneg by assumption. unfold zero_pad.
  rewrite append_assoc, timestamp_fields_zeros. unfold str_of_nonneg.
  rewrite timestamp_fields_decimal by assumption.
  now rewrite (str_of_nonneg_value z Hz : digits_value 0 (decimal_digits _ z) = z).
Qed.

Lemma timestamp_seconds_fields (h m s : Z) :
  0 <= h -> 0 <= m -> 0 <= s ->
  timestamp_seconds (format_d0 2 h ++ ":" ++ format_d0 2 m ++ ":" ++ format_d0 2 s)
  = Some (3600 * h + 60 * m + s).
Proof.
  intros Hh Hm Hs. unfold timestamp_seconds.
  rewrite timestamp_fields_format by assumption.
  rewrite append_String, append_empty. cbn [timestamp_fields Ascii.eqb].
  change (Ascii.eqb ":" ":") with true. cbv iota.
  rewrite timestamp_fields_format by assumption.
  rewrite append_String, append_empty. cbn [timestamp_fields].
  change (Ascii.eqb ":" ":") with true. cbv iota.
  rewrite <- (append_empty_r (format_d0 2 s)).
  rewrite timestamp_fields_format by assumption. reflexivity.
Qed.

(** The text of [format_time] reads back as the whole seconds of its
    argument. *)
Lemma timestamp_seconds_format_time (seconds : Q) :
  (0 <= seconds)%Q ->
  timestamp_seconds (format_time seconds) = Some (Qfloor seconds).
Proof.
  intros Hs.
  assert (Hz : 0 <= Qfloor seconds).
  { rewrite <- (Qfloor_Z 0). apply Qfloor_resp_le. exact Hs. }
  rewrite format_time_fields by assumption. cbv zeta.
  rewrite timestamp_seconds_fields.
  - f_equal. Z.div_mod_to_equations. lia.
  - apply Z.div_pos; lia.
  - apply Z.div_pos; [apply Z.mod_pos_bound|]; lia.
  - apply Z.mod_pos_bound; lia.
Qed.

(** ** The plan that [create_segments] returns *)

Lemma Qfloor_nonneg (x : Q) : (0 <= x)%Q -> 0 <= Qfloor x.
Proof. intros H. rewrite <- (Qfloor_Z 0). now apply Qfloor_resp_le. Qed.







(** ** The names in a plan *)

Lemma format_d0_min_width (w : nat) (n : Z) :
  0 <= n -> (w <= String.length (format_d0 w n))%nat.
Proof.
  intros H. rewrite format_d0_nonneg by assumption. unfold zero_pad.
  rewrite string_length_app.
  assert (Hz : forall k, String.length (zeros k) = k)
    by (induction k as [|k IH]; [reflexivity|simpl; now rewrite IH]).
  rewrite Hz. lia.
Qed.

(** C8, as the code has it: the name of every output file of a plan is the
    stem of the input, ["_segment_"], the sequence number written in decimal
    and zero-padded to at least three digits, and [".mp4"], and the path of
    the tuple is that name in the output directory; in a plan of at most 999
    segments every number has exactly three digits, and the names, and the
    paths, sort in plan order. *)
Theorem output_names_sorted
    (self : VideoClipper) (total : Q) (L : Z) (fuel : nat)
    (its : list iteration) :
  plan_iterations fuel total L = Some its ->
  (forall i a, its !! i = Some a ->
     it_number a = Z.of_nat i + 1 /\
     output_filename self (it_number a) =
       stem (input_file self) ++ "_segment_" ++ format_d0 3 (it_number a)
       ++ ".mp4" /\
     (3 <= String.length (format_d0 3 (it_number a)))%nat /\
     digits_value 0 (format_d0 3 (it_number a)) = it_number a /\
     snd (segment_tuple self a) =
       joinpath (output_dir self) (output_filename self (it_number a))) /\
  ((length its <= 999)%nat ->
   (forall i a, its !! i = Some a ->
      format_d0 3 (it_number a) = three_digits (it_number a) /\
      String.length (format_d0 3 (it_number a)) = 3%nat) /\
   (forall i j a b, its !! i = Some a -> its !! j = Some b -> (i < j)%nat ->
      String.compare (output_filename self (it_number a))
                     (output_filename self (it_number b)) = Lt /\
      String.compare (snd (segment_tuple self a))
                     (snd (segment_tuple self b)) = Lt)).
Proof.
  intros Hplan. split.
  - intros i a Ha.
    destruct (segment_loop_lookup _ _ _ _ _ _ _ _ Hplan Ha) as (_ & Hna & _).
    split; [lia|]. split; [reflexivity|].
    split; [apply format_d0_min_width; lia|].
    split; [apply format_d0_value; lia|reflexivity].
  - intros Hlen. split.
    + intros i a Ha.
      destruct (segment_loop_lookup _ _ _ _ _ _ _ _ Hplan Ha) as (_ & Hna & _).
      pose proof (lookup_lt_Some _ _ _ Ha) as Hil.
      rewrite format_d0_3 by lia. split; reflexivity.
    + intros i j a b Ha Hb Hij.
      destruct (segment_loop_lookup _ _ _ _ _ _ _ _ Hplan Ha) as (_ & Hna & _).
      destruct (segment_loop_lookup _ _ _ _ _ _ _ _ Hplan Hb) as (_ & Hnb & _).
      pose proof (lookup_lt_Some _ _ _ Hb) as Hjl.
      assert (Hc : String.compare (output_filename self (it_number a))
                     (output_filename self (it_number b)) = Lt)
        by (apply output_filename_compare; lia).
      split; [exact Hc|].
      unfold segment_tuple, joinpath. cbn [snd].
      now rewrite !compare_common_prefix.
Qed.

Lemma output_names_sorted_witness :
  String.compare
    (output_filename (clipper_of example_input) 1)
    (output_filename (clipper_of example_input) 2) = Lt.
Proof.
  exact (proj1 (proj2 (proj2
    (output_names_sorted (clipper_of example_input) 100 30 10
       [Iteration 0 30 1; Iteration 30 60 2; Iteration 60 90 3;
        Iteration 90 100 4] ltac:(reflexivity)) ltac:(simpl; lia))
    0%nat 1%nat (Iteration 0 30 1) (Iteration 30 60 2)
    ltac:(reflexivity) ltac:(reflexivity) ltac:(lia))).
Defined.

(** ** The output directory *)

(** C10, as the code has it: on an input file that exists the constructor
    calls [mkdir] on the parent of the input joined with the stem and
    ["_segments"], and does nothing else.  Where the system completes the
    call the directory is there from then on; in a run with a positive
    duration, a dry run too, the call is the first thing done to the outside,
    before any probe and so before any plan.  Where the call fails, the path
    being taken by a file or the directory not to be made, the constructor
    raises, and the run ends with exit status 1 without a probe and with the
    filesystem as it was.  The check of the duration in [main] comes before
    the constructor: a duration that is not positive makes no directory. *)
Theorem output_directory_created
    (r : mkdir_reply) (input : Path) (e : env) (w : world) :
  path_str input ∈ fs w ->
  let dir := joinpath (parent input) (stem input ++ "_segments") in
  VideoClipper_init_on r input e w =
    match r with
    | MkdirCompleted =>
        (Return (MkClipper input dir),
         World ({[dir]} ∪ fs w) (log w ++ [EvMkdir dir]))
    | MkdirFileExists =>
        (Raise FileExistsError, World (fs w) (log w ++ [EvMkdir dir]))
    | MkdirRefused =>
        (Raise OSError, World (fs w) (log w ++ [EvMkdir dir]))
    end /\
  (forall fuel duration dry_run,
     0 < duration ->
     let res := run_on r fuel (MkArgs input duration dry_run) e (fs w) in
     (exists rest, log (snd res) = EvMkdir dir :: rest /\ mkdirs_of rest = []) /\
     fs w ⊆ fs (snd res) /\
     (r = MkdirCompleted -> dir ∈ fs (snd res)) /\
     (r <> MkdirCompleted ->
      fst res = SysExit 1 /\ fs (snd res) = fs w /\
      probes_of (log (snd res)) = [] /\ extracts_of (log (snd res)) = [])) /\
  (forall fuel duration dry_run,
     duration <= 0 ->
     let res := run_on r fuel (MkArgs input duration dry_run) e (fs w) in
     fs (snd res) = fs w /\ mkdirs_of (log (snd res)) = []).
Proof.
  intros Hin dir. split; [|split].
  - rewrite VideoClipper_init_on_run, bool_decide_eq_true_2 by assumption.
    destruct r; reflexivity.
  - intros fuel duration dry_run HL. cbv zeta.
    rewrite run_on_positive by assumption. cbv zeta. cbn [arg_input_file].
    rewrite bool_decide_eq_true_2 by assumption.
    cbn [arg_duration arg_dry_run].
    change (output_dir (clipper_of input)) with dir.
    destruct r.
    + match goal with |- context [main_handler ?r] =>
        destruct (main_handler_frame r) as (_ & _ & Hm & Hf & l & Hl) end.
      match goal with |- context [split_video ?f ?c ?d ?b ?e ?w1] =>
        destruct (split_video_frame f c d b e w1)
          as (_ & Hm' & Hf' & l' & Hl') end.
      cbn [fs log] in Hm', Hf', Hl'. rewrite Hf.
      assert (Hl0 : mkdirs_of l = []).
      { rewrite Hl, mkdirs_of_app in Hm.
        match type of Hm with _ = ?x => apply (app_inv_head x) end.
        now rewrite app_nil_r. }
      assert (Hl0' : mkdirs_of l' = []).
      { rewrite Hl' in Hm'. cbn in Hm'. congruence. }
      split.
      { rewrite Hl, Hl'. exists (l' ++ l)%list. split; [reflexivity|].
        now rewrite mkdirs_of_app, Hl0, Hl0'. }
      split; [etrans; [apply union_subseteq_r|exact Hf']|].
      split; [|intros H; now destruct H].
      intros _. apply Hf', elem_of_union_l, elem_of_singleton. reflexivity.
    + cbn [fst snd fs log]. split; [eexists; split; reflexivity|].
      split; [reflexivity|]. split; [discriminate|].
      intros _. repeat split.
    + cbn [fst snd fs log]. split; [eexists; split; reflexivity|].
      split; [reflexivity|]. split; [discriminate|].
      intros _. repeat split.
  - intros fuel duration dry_run HL. cbv zeta.
    rewrite run_on_nonpositive by assumption. split; reflexivity.
Qed.

Lemma output_directory_created_witness :
  "/data/talk_segments" ∈
    fs (snd (run_on MkdirCompleted 10 (MkArgs example_input 30 true)
               example_env example_files)).
Proof.
  pose proof (output_directory_created MkdirCompleted example_input example_env
                (World example_files []) ltac:(reflexivity)) as (_ & H & _).
  exact (proj1 (proj2 (proj2 (H 10%nat 30 true ltac:(lia)))) eq_refl).
Defined.

(** C10 as stated fails: [main] checks the duration before it constructs the
    clipper, so a dry run with duration 0 on an input file that exists is
    turned away without the directory being made; and where a file has the
    path of the output directory, the constructor raises and the run ends
    without a directory made and without a probe. *)
Lemma rejected_duration_makes_no_directory :
  let r := run 10 (MkArgs example_input 0 true) example_env example_files in
  let r' := run_on MkdirFileExists 10 (MkArgs example_input 30 true)
              example_env ({["/data/talk_segments"]} ∪ example_files) in
  "/data/talk.mp4" ∈ example_files /\
  fst r = SysExit 1 /\
  mkdirs_of (log (snd r)) = [] /\
  ("/data/talk_segments" ∉ fs (snd r)) /\
  fst r' = SysExit 1 /\
  fs (snd r') = {["/data/talk_segments"]} ∪ example_files /\
  probes_of (log (snd r')) = [].
Proof.
  cbv zeta. rewrite run_nonpositive by (simpl; lia).
  rewrite run_on_positive by (simpl; lia). cbv zeta.
  rewrite bool_decide_eq_true_2
    by (apply elem_of_union_r, elem_of_singleton; reflexivity).
  repeat split. vm_compute. intros H. discriminate H.
Qed.

(** ** More on the plan *)

(** X1: the iterations of a plan are numbered 1, 2, 3, ... without a gap; with
    a positive segment length each one is longer than nothing and no longer
    than the segment length, and each one that is not the last is exactly one
    segment length long. *)
Theorem plan_numbering_and_lengths
    (total : Q) (L : Z) (fuel : nat) (its : list iteration)
    (i : nat) (it : iteration) :
  0 < L ->
  plan_iterations fuel total L = Some its ->
  its !! i = Some it ->
  it_number it = Z.of_nat i + 1 /\
  (it_start it == inject_Z (Z.of_nat i * L))%Q /\
  (it_start it < it_end it)%Q /\
  (it_end it - it_start it <= inject_Z L)%Q /\
  (it_end it <= total)%Q /\
  ((S i < length its)%nat -> (it_end it - it_start it == inject_Z L)%Q).
Proof.
  intros HL Hplan Hi.
  assert (HLq : (0 < inject_Z L)%Q) by (apply inject_Z_pos, HL).
  destruct (segment_loop_lookup _ _ _ _ _ _ _ _ Hplan Hi)
    as (Hs & Hn & Hlt & He).
  assert (Hmin : (it_end it <= total /\ it_start it < it_end it /\
                  it_end it - it_start it <= inject_Z L)%Q).
  { rewrite He. unfold py_min.
    destruct (Qlt_le_dec total (it_start it + inject_Z L)); repeat split; lra. }
  destruct Hmin as (H1 & H2 & H3).
  split; [lia|]. split; [rewrite Hs; lra|]. repeat split; try assumption.
  intros Hnext.
  destruct (lookup_lt_is_Some_2 its (S i) Hnext) as [b Hb].
  destruct (segment_loop_lookup _ _ _ _ _ _ _ _ Hplan Hb) as (_ & _ & Hbl & _).
  pose proof (segment_loop_chained _ _ _ _ _ _ Hplan) as Hc.
  rewrite <- (chained_adjacent its _ _ _ _ Hc Hi Hb) in Hbl.
  revert Hbl. rewrite He. unfold py_min.
  destruct (Qlt_le_dec total (it_start it + inject_Z L)); lra.
Qed.

Lemma plan_numbering_and_lengths_witness :
  it_number (Iteration 30 60 2) = Z.of_nat 1 + 1 /\
  (it_end (Iteration 30 60 2) - it_start (Iteration 30 60 2) == inject_Z 30)%Q.
Proof.
  pose proof (plan_numbering_and_lengths 100 30 10
                [Iteration 0 30 1; Iteration 30 60 2; Iteration 60 90 3;
                 Iteration 90 100 4] 1 (Iteration 30 60 2)
                ltac:(lia) ltac:(reflexivity) ltac:(reflexivity))
    as (H1 & _ & _ & _ & _ & H2).
  split; [exact H1|]. apply H2. simpl. lia.
Defined.

Lemma total_length_chained : forall (its : list iteration) (s : Q) (lst : iteration),
  chained s its -> last its = Some lst ->
  (total_length its == it_end lst - s)%Q.
Proof.
  induction its as [|it rest IH]; intros s lst Hc Hl; [discriminate|].
  destruct Hc as [Hs Hc]. destruct rest as [|it' rest'].
  - injection Hl as <-. simpl. rewrite Hs. lra.
  - change (last (it :: it' :: rest')) with (last (it' :: rest')) in Hl.
    cbn [total_length]. cbn [total_length] in IH.
    rewrite (IH (it_end it) lst Hc Hl), Hs. lra.
Qed.

(** X2: for a positive total duration and a positive segment length the
    lengths of the segments of the plan add up to the total duration. *)
Theorem plan_lengths_sum_to_total (total : Q) (L : Z) (fuel : nat) :
  (0 < total)%Q -> 0 < L ->
  (Z.to_nat (Qceiling (total / inject_Z L)) < fuel)%nat ->
  exists its,
    plan_iterations fuel total L = Some its /\
    (total_length its == total)%Q.
Proof.
  intros Ht HL Hf.
  destruct (plan_iterations_returns total L HL Ht fuel Hf) as (its & Hp & _).
  exists its. split; [exact Hp|].
  pose proof (segment_loop_chained _ _ _ _ _ _ Hp) as Hc.
  destruct (segment_loop_last _ _ _ _ _ _ Hp Ht) as (lst & Hl & He).
  rewrite (total_length_chained its 0 lst Hc Hl), He. lra.
Qed.

Lemma plan_lengths_sum_to_total_witness :
  exists its,
    plan_iterations 5 (201 # 2) 30 = Some its /\
    (total_length its == 201 # 2)%Q.
Proof.
  apply (plan_lengths_sum_to_total (201 # 2) 30 5);
    [reflexivity | lia | vm_compute; lia].
Defined.

(** ** More on timestamps and names *)

Lemma Qfloor_neg (x : Q) : Qfloor x < 0 <-> (x < 0)%Q.
Proof.
  pose proof (Qfloor_le x) as H1. pose proof (Qlt_floor x) as H2. split.
  - intros H. apply Qlt_le_trans with (inject_Z (Qfloor x + 1)); [exact H2|].
    change 0%Q with (inject_Z 0). rewrite <- Zle_Qle. lia.
  - intros H. rewrite Zlt_Qlt. change (inject_Z 0) with 0%Q. lra.
Qed.

(** X3: on an argument that is not negative the three fields that
    [format_time] computes take the whole seconds of the argument apart: 3600
    times the hours plus 60 times the minutes plus the seconds is the floor of
    the argument, the hours are not negative and minutes and seconds lie in
    0..59; and the text reads back as that many seconds. *)
Theorem time_fields_recombine (seconds : Q) :
  (0 <= seconds)%Q ->
  let hours := py_int (py_floordiv seconds 3600) in
  let minutes := py_int (py_floordiv (py_mod seconds 3600) 60) in
  let secs := py_int (py_mod seconds 60) in
  3600 * hours + 60 * minutes + secs = Qfloor seconds /\
  0 <= hours /\ 0 <= minutes < 60 /\ 0 <= secs < 60 /\
  timestamp_seconds (format_time seconds) = Some (Qfloor seconds).
Proof.
  intros Hs hours minutes secs.
  pose proof (Qfloor_nonneg seconds Hs) as Hz.
  assert (Hh : hours = Qfloor seconds / 3600).
  { unfold hours, py_floordiv. rewrite py_int_inject_Z.
    now rewrite Qfloor_div_Z by lia. }
  assert (Hm : minutes = Qfloor seconds mod 3600 / 60).
  { unfold minutes, py_floordiv. rewrite py_int_inject_Z.
    rewrite Qfloor_div_Z by lia. now rewrite py_mod_floor by (assumption || lia). }
  assert (Hc : secs = Qfloor seconds mod 60).
  { unfold secs. rewrite py_int_floor by (apply py_mod_nonneg; [assumption|lia]).
    now rewrite py_mod_floor by (assumption || lia). }
  split; [rewrite Hh, Hm, Hc; Z.div_mod_to_equations; lia|].
  split; [rewrite Hh; Z.div_mod_to_equations; lia|].
  split; [rewrite Hm; Z.div_mod_to_equations; lia|].
  split; [rewrite Hc; Z.div_mod_to_equations; lia|].
  now apply timestamp_seconds_format_time.
Qed.

Lemma time_fields_recombine_witness :
  timestamp_seconds (format_time (7323 # 2)) = Some (Qfloor (7323 # 2)).
Proof.
  apply (time_fields_recombine (7323 # 2)). unfold Qle; simpl; lia.
Defined.

(** On a negative argument the hours are negative and the text begins with a
    minus sign. *)
Lemma format_time_negative (seconds : Q) :
  (seconds < 0)%Q -> exists rest, format_time seconds = String "-" rest.
Proof.
  intros Hs. unfold format_time.
  assert (Hh : py_int (py_floordiv seconds 3600) < 0).
  { unfold py_floordiv. rewrite py_int_inject_Z, Qfloor_div_Z by lia.
    apply Qfloor_neg in Hs. Z.div_mod_to_equations. lia. }
  unfold format_d0 at 1.
  destruct (Z.ltb_spec (py_int (py_floordiv seconds 3600)) 0); [|lia].
  rewrite append_String. eexists. reflexivity.
Qed.

(** The sum that [%] makes on a negative float is rounded: a negative
    argument close to 0 gives 60 minutes and 60 seconds. *)
Lemma format_time_rounds_up :
  format_time (- (1 # 1152921504606846976)) = "-1:60:60".
Proof. reflexivity. Qed.

Lemma output_filename_inj (self : VideoClipper) (m n : Z) :
  0 <= m -> 0 <= n ->
  output_filename self m = output_filename self n -> m = n.
Proof.
  intros Hm Hn H. unfold output_filename in H.
  do 2 apply append_inv_head in H. apply append_inv_tail in H.
  rewrite <- (format_d0_value 3 m Hm), <- (format_d0_value 3 n Hn).
  now rewrite H.
Qed.

(** X4: no two segments of a plan are written to the same file: the output
    paths of the tuples are pairwise different, however long the plan is. *)
Theorem output_paths_distinct
    (self : VideoClipper) (total : Q) (L : Z) (fuel : nat)
    (its : list iteration) :
  plan_iterations fuel total L = Some its ->
  NoDup (map snd (map (segment_tuple self) its)).
Proof.
  intros Hplan. apply NoDup_alt. intros i j p Hi Hj.
  rewrite !list_lookup_fmap in Hi, Hj.
  destruct (its !! i) as [a|] eqn:Ea; [|discriminate].
  destruct (its !! j) as [b|] eqn:Eb; [|discriminate].
  cbn in Hi, Hj. injection Hi as Hi. injection Hj as Hj.
  destruct (segment_loop_lookup _ _ _ _ _ _ _ _ Hplan Ea) as (_ & Hna & _).
  destruct (segment_loop_lookup _ _ _ _ _ _ _ _ Hplan Eb) as (_ & Hnb & _).
  rewrite <- Hj in Hi. unfold joinpath in Hi.
  do 2 apply append_inv_head in Hi.
  apply output_filename_inj in Hi; lia.
Qed.

Lemma output_paths_distinct_witness :
  NoDup (map snd (map (segment_tuple (clipper_of example_input))
                    [Iteration 0 30 1; Iteration 30 60 2; Iteration 60 90 3;
                     Iteration 90 100 4])).
Proof.
  apply (output_paths_distinct (clipper_of example_input) 100 30 10).
  reflexivity.
Defined.

(** X5: in the tuples that [create_segments] returns the boundaries are
    written by [format_time]: the end string of each tuple is the start string
    of the next, the first start string is ["00:00:00"], and the last end
    string is the total duration cut down to whole seconds. *)
Theorem tuple_timestamps (self : VideoClipper) (total : Q) (L : Z)
    (fuel : nat) (its : list iteration) :
  plan_iterations fuel total L = Some its ->
  (0 < total)%Q ->
  let segments := map (segment_tuple self) its in
  (forall i t u, segments !! i = Some t -> segments !! S i = Some u ->
                 t.1.2 = u.1.1) /\
  (forall t, head segments = Some t -> t.1.1 = "00:00:00") /\
  (forall t, last segments = Some t ->
             t.1.2 = format_time (inject_Z (Qfloor total))).
Proof.
  intros Hplan Hpos segments.
  destruct (create_segments_strings self total L fuel its Hplan)
    as (H1 & H2 & H3).
  split; [exact H1|]. split; [exact H2|]. intros t. now apply H3.
Qed.

Lemma tuple_timestamps_witness :
  (segment_tuple (clipper_of example_input) (Iteration 90 (201 # 2) 4)).1.2
  = format_time (inject_Z (Qfloor (201 # 2))).
Proof.
  apply (proj2 (proj2 (tuple_timestamps (clipper_of example_input) (201 # 2)
                         30 10
                         [Iteration 0 30 1; Iteration 30 60 2;
                          Iteration 60 90 3; Iteration 90 (201 # 2) 4]
                         ltac:(reflexivity) ltac:(reflexivity)))).
  reflexivity.
Defined.

(** ** More on runs *)

Lemma print_plan_exact (segments : list (string * string * string)) :
  forall i e w,
    print_plan i segments e w =
    (Return tt, World (fs w) (log w ++ planned_lines i segments)).
Proof.
  induction segments as [|[[s t] o] rest IH]; intros i e w.
  - cbn. rewrite app_nil_r. now destruct w.
  - cbn [print_plan planned_lines]. unfold bind at 1. cbn [print emit].
    rewrite IH. cbn [fs log]. now rewrite <- app_assoc.
Qed.


(** X6: when the input file does not exist the run ends with exit status 1
    after printing the error; no directory is made, no tool is run and the
    filesystem is as it was. *)
Theorem missing_input_exits_one
    (fuel : nat) (args : Args) (e : env) (files : gset string) :
  0 < arg_duration args ->
  path_str (arg_input_file args) ∉ files ->
  run fuel args e files =
    (SysExit 1, World files [EvPrint (MsgError FileNotFoundError)]).
Proof.
  intros HL Hin. rewrite run_positive by assumption. cbv zeta.
  now rewrite bool_decide_eq_false_2.
Qed.

Lemma missing_input_exits_one_witness :
  run 10 (MkArgs example_input 30 false) example_env ∅ =
    (SysExit 1, World ∅ [EvPrint (MsgError FileNotFoundError)]).
Proof.
  apply (missing_input_exits_one 10 (MkArgs example_input 30 false)
           example_env ∅); [simpl; lia | apply not_elem_of_empty].
Defined.

(** X7: a probe that gives no duration ends the run with exit status 1: ffmpeg
    is not run and nothing is planned, but the output directory, made by the
    constructor before, stays.  This holds for the probe of [split_video] and
    for the one of [create_segments]. *)
Theorem probe_failure_exits_one
    (fuel : nat) (args : Args) (e : env) (files : gset string) :
  0 < arg_duration args ->
  path_str (arg_input_file args) ∈ files ->
  let self := clipper_of (arg_input_file args) in
  let file := path_str (arg_input_file args) in
  let start := [EvMkdir (output_dir self); EvPrint (MsgInputFile file);
                EvPrint (MsgOutputDirectory (output_dir self)); EvProbe file] in
  ((forall d, ffprobe e 0 <> ProbeCompleted (Some d)) ->
   run fuel args e files =
     (SysExit 1,
      World ({[output_dir self]} ∪ files)
        (start ++ [EvPrint (MsgError (probe_exn (ffprobe e 0)))]))) /\
  (forall d1,
     ffprobe e 0 = ProbeCompleted (Some d1) ->
     (forall d, ffprobe e 1 <> ProbeCompleted (Some d)) ->
     run fuel args e files =
       (SysExit 1,
        World ({[output_dir self]} ∪ files)
          (start ++ [EvPrint (MsgTotalDuration (format_time d1)); EvProbe file;
                     EvPrint (MsgError (probe_exn (ffprobe e 1)))]))).
Proof.
  intros HL Hin self file start. split.
  - intros H. rewrite run_positive by assumption. cbv zeta.
    rewrite bool_decide_eq_true_2 by assumption.
    rewrite split_video_run. cbv zeta. cbn [log probes_of length].
    destruct (ffprobe e 0) as [[d|]| |]; try reflexivity. now destruct (H d).
  - intros d1 H1 H. rewrite run_positive by assumption. cbv zeta.
    rewrite bool_decide_eq_true_2 by assumption.
    rewrite split_video_run. cbv zeta. cbn [log probes_of length].
    rewrite H1.
    destruct (ffprobe e 1) as [[d|]| |]; try reflexivity. now destruct (H d).
Qed.

Lemma probe_failure_exits_one_witness :
  exit_status
    (fst (run 10 (MkArgs example_input 30 false)
            (Env (fun _ => ProbeCompleted None) (ffmpeg example_env))
            example_files)) = Some 1.
Proof.
  pose proof (probe_failure_exits_one 10 (MkArgs example_input 30 false)
                (Env (fun _ => ProbeCompleted None) (ffmpeg example_env))
                example_files ltac:(simpl; lia) ltac:(reflexivity))
    as (H & _).
  rewrite H; [reflexivity|]. intros d. discriminate.
Defined.



(** X9: when both probes give a duration and every extraction completes, the
    run extracts the tuples of the plan in plan order, all their output files
    exist at the end, the last thing printed is that all segments were
    created, and [main] returns normally. *)
Theorem all_extractions_complete
    (fuel : nat) (args : Args) (e : env) (files : gset string) (d1 d2 : Q) :
  0 < arg_duration args ->
  arg_dry_run args = false ->
  path_str (arg_input_file args) ∈ files ->
  ffprobe e 0 = ProbeCompleted (Some d1) ->
  ffprobe e 1 = ProbeCompleted (Some d2) ->
  (0 < d2)%Q ->
  (Z.to_nat (Qceiling (d2 / inject_Z (arg_duration args))) < fuel)%nat ->
  forallb (fun j => completed (ffmpeg e j))
    (seq 0 (Z.to_nat (Qceiling (d2 / inject_Z (arg_duration args))))) = true ->
  exists its,
    plan_iterations fuel d2 (arg_duration args) = Some its /\
    let self := clipper_of (arg_input_file args) in
    let segments := map (segment_tuple self) its in
    let r := run fuel args e files in
    fst r = Return tt /\
    extracts_of (log (snd r)) = segments /\
    fs (snd r) =
      list_to_set (map snd segments) ∪ ({[output_dir self]} ∪ files) /\
    last (log (snd r)) = Some (EvPrint (MsgAllCreated (output_dir self))).
Proof.
  intros HL Hdry Hin Hp1 Hp2 Hd Hfuel Hok.
  destruct (plan_iterations_returns d2 _ HL Hd fuel Hfuel) as (its & Hplan & Hlen).
  exists its. split; [exact Hplan|]. cbv zeta.
  rewrite run_positive by assumption. cbv zeta.
  rewrite bool_decide_eq_true_2 by assumption.
  rewrite split_video_run. cbv zeta. cbn [log probes_of length].
  rewrite Hp1, Hp2, Hplan, Hdry.
  match goal with |- context [process_segments ?c ?n ?i ?s ?e ?w1] =>
    pose proof (process_segments_success c n e s i w1) as Hs;
    destruct (process_segments c n i s e w1) as [o w'] end.
  cbv zeta in Hs. cbn [fst snd fs log] in Hs.
  rewrite !extracts_of_app in Hs. cbn [extracts_of app length] in Hs.
  destruct Hs as (Ho & Hx & Hf).
  - intros j Hj. rewrite length_map, Hlen in Hj. cbn [Nat.add].
    now apply forallb_seq_completed
      with (Z.to_nat (Qceiling (d2 / inject_Z (arg_duration args)))).
  - subst o. cbn [main_handler fst snd fs log]. split; [reflexivity|].
    rewrite extracts_of_app. cbn [extracts_of]. rewrite app_nil_r.
    split; [exact Hx|]. split; [exact Hf|]. apply last_snoc.
Qed.

Lemma all_extractions_complete_witness :
  exists its,
    plan_iterations 10 100 30 = Some its /\
    let self := clipper_of example_input in
    let segments := map (segment_tuple self) its in
    let r := run 10 (MkArgs example_input 30 false)
               (Env (ffprobe example_env) (fun _ => ExtractCompleted))
               example_files in
    fst r = Return tt /\
    extracts_of (log (snd r)) = segments /\
    fs (snd r) =
      list_to_set (map snd segments) ∪ ({[output_dir self]} ∪ example_files) /\
    last (log (snd r)) = Some (EvPrint (MsgAllCreated (output_dir self))).
Proof.
  apply (all_extractions_complete 10 (MkArgs example_input 30 false)
           (Env (ffprobe example_env) (fun _ => ExtractCompleted))
           example_files 100 100);
    try reflexivity; try (simpl; lia); try (vm_compute; lia).
Defined.

(** X10: an ffmpeg that cannot be started is not caught by [split_video]: the
    exception reaches [main], and the run ends with exit status 1 after that
    one attempt. *)
Theorem ffmpeg_not_started_exits_one
    (fuel : nat) (args : Args) (e : env) (files : gset string)
    (d1 d2 : Q) (k : nat) :
  0 < arg_duration args ->
  arg_dry_run args = false ->
  path_str (arg_input_file args) ∈ files ->
  ffprobe e 0 = ProbeCompleted (Some d1) ->
  ffprobe e 1 = ProbeCompleted (Some d2) ->
  (0 < d2)%Q ->
  (Z.to_nat (Qceiling (d2 / inject_Z (arg_duration args))) < fuel)%nat ->
  (k < Z.to_nat (Qceiling (d2 / inject_Z (arg_duration args))))%nat ->
  forallb (fun j => completed (ffmpeg e j)) (seq 0 k) = true ->
  ffmpeg e k = ExtractNotStarted ->
  exit_status (fst (run fuel args e files)) = Some 1 /\
  length (extracts_of (log (snd (run fuel args e files)))) = S k.
Proof.
  intros HL Hdry Hin Hp1 Hp2 Hd Hfuel Hk Hok Hbad.
  destruct (plan_iterations_returns d2 _ HL Hd fuel Hfuel) as (its & Hplan & Hlen).
  destruct (run_failure fuel args e files d1 d2 its k) as (Ho & Hx & _);
    try assumption; [lia|now rewrite Hbad|].
  rewrite Ho, Hbad, Hx. split; [reflexivity|].
  rewrite length_take, length_map. lia.
Qed.

Lemma ffmpeg_not_started_exits_one_witness :
  exit_status
    (fst (run 10 (MkArgs example_input 30 false)
            (Env (ffprobe example_env) (fun _ => ExtractNotStarted))
            example_files)) = Some 1.
Proof.
  apply (ffmpeg_not_started_exits_one 10 (MkArgs example_input 30 false)
           (Env (ffprobe example_env) (fun _ => ExtractNotStarted))
           example_files 100 100 0);
    try reflexivity; try (simpl; lia); try (vm_compute; lia).
Defined.

(** X11: when ffprobe reports a duration that is not positive, the plan is
    empty and the run reports success: it prints that 0 segments will be
    created and that all segments were created, runs no ffmpeg, and [main]
    returns normally. *)
Theorem nonpositive_duration_reports_success
    (fuel : nat) (args : Args) (e : env) (files : gset string) (d1 d2 : Q) :
  0 < arg_duration args ->
  arg_dry_run args = false ->
  path_str (arg_input_file args) ∈ files ->
  ffprobe e 0 = ProbeCompleted (Some d1) ->
  ffprobe e 1 = ProbeCompleted (Some d2) ->
  (d2 <= 0)%Q ->
  (0 < fuel)%nat ->
  let self := clipper_of (arg_input_file args) in
  let file := path_str (arg_input_file args) in
  run fuel args e files =
    (Return tt,
     World ({[output_dir self]} ∪ files)
       [EvMkdir (output_dir self); EvPrint (MsgInputFile file);
        EvPrint (MsgOutputDirectory (output_dir self)); EvProbe file;
        EvPrint (MsgTotalDuration (format_time d1)); EvProbe file;
        EvPrint (MsgWillCreate 0); EvPrint MsgStarting;
        EvPrint (MsgAllCreated (output_dir self))]).
Proof.
  intros HL Hdry Hin Hp1 Hp2 Hd Hfuel self file.
  assert (Hplan : plan_iterations fuel d2 (arg_duration args) = Some []).
  { destruct fuel as [|fuel]; [lia|]. unfold plan_iterations. simpl.
    destruct (Qlt_le_dec 0 d2); [lra|reflexivity]. }
  rewrite run_positive by assumption. cbv zeta.
  rewrite bool_decide_eq_true_2 by assumption.
  rewrite split_video_run. cbv zeta. cbn [log probes_of length].
  rewrite Hp1, Hp2, Hplan, Hdry. reflexivity.
Qed.

Lemma nonpositive_duration_reports_success_witness :
  exit_status
    (fst (run 1 (MkArgs example_input 30 false)
            (Env (fun _ => ProbeCompleted (Some (-5)%Q)) (ffmpeg example_env))
            example_files)) = Some 0.
Proof.
  rewrite (nonpositive_duration_reports_success 1
             (MkArgs example_input 30 false)
             (Env (fun _ => ProbeCompleted (Some (-5)%Q)) (ffmpeg example_env))
             example_files (-5) (-5));
    try reflexivity; try (simpl; lia); try (unfold Qle; simpl; lia).
Defined.

Lemma process_segments_fs_bound (self : VideoClipper) (count : nat) (e : env) :
  forall (segments : list (string * string * string)) (i : nat) (w : world),
    fs (snd (process_segments self count i segments e w))
    ⊆ list_to_set (map snd segments) ∪ fs w.
Proof.
  induction segments as [|[[s t] o] rest IH]; intros i w.
  - cbn. apply union_subseteq_r.
  - rewrite process_segments_cons. cbv zeta. cbn [map snd list_to_set].
    destruct (ffmpeg e _).
    + etrans; [apply IH|]. cbn [fs].
      rewrite (assoc_L (∪)), (comm_L (∪) _ {[o]}). reflexivity.
    + cbn [snd fs]. apply union_subseteq_r.
    + cbn [snd fs]. apply union_subseteq_r.
Qed.

(** X12: a run writes nowhere but into its output directory: whatever the
    tools reply, every path that exists after the run existed before it, or is
    the output directory, or is the output directory joined with the name of
    a segment file with a sequence number from 1 on. *)
Theorem run_writes_only_output_dir
    (fuel : nat) (args : Args) (e : env) (files : gset string) (p : string) :
  p ∈ fs (snd (run fuel args e files)) ->
  let self := clipper_of (arg_input_file args) in
  p ∈ files \/ p = output_dir self \/
  exists n, 1 <= n /\ p = joinpath (output_dir self) (output_filename self n).
Proof.
  intros Hp self. revert Hp.
  destruct (Z.le_gt_cases (arg_duration args) 0) as [Hn|HL].
  { rewrite run_nonpositive by assumption. cbn [snd fs]. now left. }
  rewrite run_positive by lia. cbv zeta. fold self.
  destruct (bool_decide _); [|cbn [snd fs]; now left].
  match goal with |- context [main_handler ?r] =>
    destruct (main_handler_frame r) as (_ & _ & _ & -> & _) end.
  rewrite split_video_run. cbv zeta. cbn [log probes_of length fs].
  assert (Hbase : forall q : string, q ∈ {[output_dir self]} ∪ files ->
            q ∈ files \/ q = output_dir self \/
            exists n, 1 <= n /\
              q = joinpath (output_dir self) (output_filename self n)).
  { intros q [Hq|Hq]%elem_of_union; [right; left|left; exact Hq].
    now apply elem_of_singleton in Hq. }
  destruct (ffprobe e 0) as [[d1|]| |]; try (cbn [snd fs]; apply Hbase).
  destruct (ffprobe e 1) as [[d2|]| |]; try (cbn [snd fs]; apply Hbase).
  destruct (plan_iterations fuel d2 (arg_duration args)) as [its|] eqn:Ep;
    [|cbn [snd fs]; apply Hbase].
  destruct (arg_dry_run args).
  - rewrite print_plan_exact. cbn [snd fs]. apply Hbase.
  - match goal with |- context [process_segments ?c ?n ?i ?s ?e ?w1] =>
      pose proof (process_segments_fs_bound c n e s i w1) as Hb;
      destruct (process_segments c n i s e w1) as [o w'] end.
    cbn [snd fs] in Hb.
    assert (Hw : p ∈ fs w' -> p ∈ files \/ p = output_dir self \/
              exists n, 1 <= n /\
                p = joinpath (output_dir self) (output_filename self n)).
    { intros Hp. apply Hb in Hp. apply elem_of_union in Hp as [Hp|Hp];
        [|now apply Hbase].
      apply elem_of_list_to_set, list_elem_of_fmap in Hp as (t & -> & Ht).
      apply list_elem_of_fmap in Ht as (it & -> & Hit).
      apply list_elem_of_lookup in Hit as (i & Hi).
      destruct (segment_loop_lookup _ _ _ _ _ _ _ _ Ep Hi) as (_ & Hnum & _).
      right; right. exists (it_number it). split; [lia|reflexivity]. }
    destruct o as [[|]|x|code|]; cbn [snd fs]; exact Hw.
Qed.

Lemma run_writes_only_output_dir_witness :
  "/data/talk_segments/talk_segment_001.mp4" ∈ example_files \/
  "/data/talk_segments/talk_segment_001.mp4"
    = output_dir (clipper_of example_input) \/
  exists n, 1 <= n /\
    "/data/talk_segments/talk_segment_001.mp4"
      = joinpath (output_dir (clipper_of example_input))
          (output_filename (clipper_of example_input) n).
Proof.
  apply (run_writes_only_output_dir 10 (MkArgs example_input 30 false)
           example_env example_files).
  vm_compute. reflexivity.
Defined.
